(** * Student management backend (main.py): entity store, query engine,
      update merge and document references.

    The request handlers of [main.py] are embedded as computations in a small
    state-and-exception monad over the durable store, the unit of work of
    the ORM session and the upload directory.  What the handlers delegate to
    their libraries is modelled next to them:

    - the relational engine: the three tables, their column constraints
      (NOT NULL, VARCHAR(n), INTEGER, UNIQUE, PRIMARY KEY, FOREIGN KEY), the
      serial sequences, ILIKE matching;
    - the row order of a SELECT without ORDER BY, which the engine is free
      to choose: every handler takes the engine's choice as the parameter
      [engine];
    - the ORM session: [db.add], attribute assignment, [db.delete],
      [db.commit] (flush, then make durable), [db.refresh];
    - the request validation declared in the handler signatures
      ([Query(0, ge=0)], [Query(10, ge=1, le=100)]).

    Token verification ([Depends(verify_token)]) is the same gate in front
    of every handler and is left out: the handlers are modelled for an
    authenticated caller. *)

From Stdlib Require Import ZArith List String Ascii Bool Lia Permutation.
From Stdlib Require DecimalString QArith_base.
Import ListNotations.
Local Open Scope string_scope.
Local Open Scope Z_scope.
Local Open Scope list_scope.

(** ** Column values *)

(** [Float] columns are only stored and copied by the handlers; no
    arithmetic is ever performed on them. *)
Definition float : Type := QArith_base.Q.

(** ** Database models (main.py, lines 79-117) *)

Module Student.
Record t : Type := mk {
  id : Z;
  name : string;
  email : string;
  phone : string;
  gender : string;
  created_at : Z
}.
End Student.

Module AcademicDetails.
Record t : Type := mk {
  id : Z;
  student_id : Z;
  college_name : string;
  department : string;
  graduation_year : Z;
  cgpa : float;
  backlogs : Z
}.
End AcademicDetails.

Module Documents.
Record t : Type := mk {
  id : Z;
  student_id : Z;
  doc_type : string;
  file_path : string;
  uploaded_at : Z
}.
End Documents.

(** The entries of the dictionaries that the update handler walks through
    with [setattr]: a column of [students] with the value sent for it
    ([None] is Python's [None]), and a column of [academic_details] with
    its value. *)
Inductive StudentCol : Type := Col_name | Col_email | Col_phone | Col_gender.

Definition StudentItem : Type := (StudentCol * option string)%type.

Inductive AcademicItem : Type :=
| Item_college_name (value : string)
| Item_department (value : string)
| Item_graduation_year (value : Z)
| Item_cgpa (value : float)
| Item_backlogs (value : Z).

(** ** Pydantic models (main.py, lines 125-172) *)

Module AcademicDetailsBase.
Record t : Type := mk {
  college_name : string;
  department : string;
  graduation_year : Z;
  cgpa : float;
  backlogs : Z          (* [backlogs: int = 0]: the default is filled in at parsing *)
}.
End AcademicDetailsBase.

Module StudentCreate.
Record t : Type := mk {
  name : string;
  email : string;
  phone : string;
  gender : string;
  academic_details : AcademicDetailsBase.t
}.
End StudentCreate.

(** Every field of [StudentUpdate] is [Optional[...] = None].  The model
    remembers which fields the request set: [None] is a field the request
    omitted, [Some None] a field sent as [null], [Some (Some v)] a field
    sent with a value. *)
Module StudentUpdate.
Record t : Type := mk {
  name : option (option string);
  email : option (option string);
  phone : option (option string);
  gender : option (option string);
  academic_details : option (option AcademicDetailsBase.t)
}.
End StudentUpdate.

Module StudentResponse.
Record t : Type := mk {
  id : Z;
  name : string;
  email : string;
  phone : string;
  gender : string;
  created_at : Z;
  academic_details : list AcademicDetails.t;
  documents : list Documents.t
}.
End StudentResponse.

Module UploadFile.
Record t : Type := mk {
  filename : string;
  file : list Byte.byte
}.
End UploadFile.

(** ** The store *)

(** The three tables with their serial sequences.  A table is the list of
    its rows; the position of a row in the list has no meaning for the
    queries, which see the rows in the order the engine hands them out. *)
Record Database : Type := mkDatabase {
  students : list Student.t;
  academic_details : list AcademicDetails.t;
  documents : list Documents.t;
  students_id_seq : Z;
  academic_details_id_seq : Z;
  documents_id_seq : Z
}.

(** The upload directory: path and content of each file. *)
Definition Files : Type := list (string * list Byte.byte).

(** ** Exceptions *)

Inductive Exc : Type :=
| HTTPException (status_code : Z) (detail : string)
| RequestValidationError            (* answered with status 422 *)
| IntegrityError (constraint : string)
| DataError (reason : string)
| InvalidRequestError.

Inductive Result (A : Type) : Type :=
| Ok (a : A)
| Raise (e : Exc).
Arguments Ok {A} a.
Arguments Raise {A} e.

(** The error kinds of the specification, as the handlers raise them. *)
Definition NotFound (detail : string) : Exc := HTTPException 404 detail.
Definition DuplicateEmail : Exc := HTTPException 400 "Email already registered".
Definition InvalidParameter : Exc := RequestValidationError.

(** ** The unit of work *)

(** What a session has pending until the next flush. *)
Inductive Dml : Type :=
| Insert_student (r : Student.t)
| Insert_academic (r : AcademicDetails.t)
| Insert_document (r : Documents.t)
| Set_student (pk : Z) (item : StudentItem)
| Set_academic (pk : Z) (item : AcademicItem)
| Delete_student (pk : Z).

(** The engine's answer to "in which order do these rows come back" for a
    SELECT that has no ORDER BY. *)
Definition Engine : Type := forall A : Type, list A -> list A.

(** An engine returns the rows it was given, each once. *)
Definition Engine_ok (engine : Engine) : Prop :=
  forall (A : Type) (l : list A), Permutation (engine A l) l.

(** The plain sequential scan. *)
Definition seq_scan : Engine := fun _ l => l.

Record Env : Type := mkEnv {
  engine : Engine;
  now : Z              (* [func.now()] *)
}.

Record State : Type := mkState {
  db : Database;       (* what is committed; sequences are not transactional *)
  pending : list Dml;  (* the session's unit of work *)
  disk : Files
}.

Definition M (A : Type) : Type := Env -> State -> Result A * State.

Definition ret {A} (a : A) : M A := fun _ st => (Ok a, st).

Definition bind {A B} (m : M A) (k : A -> M B) : M B :=
  fun env st =>
    match m env st with
    | (Ok a, st') => k a env st'
    | (Raise e, st') => (Raise e, st')
    end.

Definition raise {A} (e : Exc) : M A := fun _ st => (Raise e, st).

Declare Scope monad_scope.
Delimit Scope monad_scope with M.
Notation "x <- m ;; k" := (bind m (fun x => k))
  (at level 61, m at next level, right associativity) : monad_scope.
Notation "m ;; k" := (bind m (fun _ => k))
  (at level 61, right associativity) : monad_scope.
Local Open Scope monad_scope.

(** [for x in xs: body(x)] *)
Fixpoint for_each {A} (xs : list A) (body : A -> M unit) : M unit :=
  match xs with
  | [] => ret tt
  | x :: xs' => body x ;; for_each xs' body
  end.

Definition ask_now : M Z := fun env st => (Ok (now env), st).

(** ** Column constraints and the statements of a flush *)

(** [String(n)] is VARCHAR(n): a longer value is refused, not truncated. *)
Definition varchar (n : nat) (s : string) : bool := (String.length s <=? n)%nat.

(** [Integer] is a 32-bit INTEGER. *)
Definition int4 (z : Z) : bool := (-2147483648 <=? z) && (z <=? 2147483647).

Definition with_students (l : list Student.t) (d : Database) : Database :=
  mkDatabase l (academic_details d) (documents d)
             (students_id_seq d) (academic_details_id_seq d) (documents_id_seq d).

Definition with_academic_details (l : list AcademicDetails.t) (d : Database) : Database :=
  mkDatabase (students d) l (documents d)
             (students_id_seq d) (academic_details_id_seq d) (documents_id_seq d).

Definition with_documents (l : list Documents.t) (d : Database) : Database :=
  mkDatabase (students d) (academic_details d) l
             (students_id_seq d) (academic_details_id_seq d) (documents_id_seq d).

Definition student_exists (pk : Z) (d : Database) : bool :=
  existsb (fun s => Student.id s =? pk) (students d).

Definition insert_student (r : Student.t) (d : Database) : Result Database :=
  if negb (varchar 100 (Student.name r) && varchar 100 (Student.email r)
           && varchar 15 (Student.phone r) && varchar 10 (Student.gender r))
  then Raise (DataError "value too long for type character varying")
  else if student_exists (Student.id r) d
  then Raise (IntegrityError "students_pkey")
  else if existsb (fun s => (Student.email s =? Student.email r)%string) (students d)
  then Raise (IntegrityError "ix_students_email")
  else Ok (with_students (students d ++ [r]) d).

Definition insert_academic (r : AcademicDetails.t) (d : Database) : Result Database :=
  if negb (varchar 200 (AcademicDetails.college_name r)
           && varchar 100 (AcademicDetails.department r))
  then Raise (DataError "value too long for type character varying")
  else if negb (int4 (AcademicDetails.graduation_year r) && int4 (AcademicDetails.backlogs r))
  then Raise (DataError "integer out of range")
  else if existsb (fun a => AcademicDetails.id a =? AcademicDetails.id r) (academic_details d)
  then Raise (IntegrityError "academic_details_pkey")
  else if negb (student_exists (AcademicDetails.student_id r) d)
  then Raise (IntegrityError "academic_details_student_id_fkey")
  else Ok (with_academic_details (academic_details d ++ [r]) d).

Definition insert_document (r : Documents.t) (d : Database) : Result Database :=
  if negb (varchar 50 (Documents.doc_type r))
  then Raise (DataError "value too long for type character varying")
  else if existsb (fun x => Documents.id x =? Documents.id r) (documents d)
  then Raise (IntegrityError "documents_pkey")
  else if negb (student_exists (Documents.student_id r) d)
  then Raise (IntegrityError "documents_student_id_fkey")
  else Ok (with_documents (documents d ++ [r]) d).

Definition student_col_width (col : StudentCol) : nat :=
  match col with
  | Col_name => 100 | Col_email => 100 | Col_phone => 15 | Col_gender => 10
  end%nat.

Definition write_student_col (col : StudentCol) (v : string) (r : Student.t) : Student.t :=
  match col with
  | Col_name =>
      Student.mk (Student.id r) v (Student.email r) (Student.phone r)
                 (Student.gender r) (Student.created_at r)
  | Col_email =>
      Student.mk (Student.id r) (Student.name r) v (Student.phone r)
                 (Student.gender r) (Student.created_at r)
  | Col_phone =>
      Student.mk (Student.id r) (Student.name r) (Student.email r) v
                 (Student.gender r) (Student.created_at r)
  | Col_gender =>
      Student.mk (Student.id r) (Student.name r) (Student.email r) (Student.phone r)
                 v (Student.created_at r)
  end.

Definition is_email (col : StudentCol) : bool :=
  match col with Col_email => true | _ => false end.

(** UPDATE students SET col = value WHERE id = pk *)
Definition update_student_row (pk : Z) (item : StudentItem) (d : Database) : Result Database :=
  match item with
  | (_, None) => Raise (IntegrityError "null value violates not-null constraint")
  | (col, Some v) =>
      if negb (varchar (student_col_width col) v)
      then Raise (DataError "value too long for type character varying")
      else if is_email col
              && existsb (fun s => negb (Student.id s =? pk)
                                   && (Student.email s =? v)%string) (students d)
      then Raise (IntegrityError "ix_students_email")
      else Ok (with_students
                 (map (fun s => if Student.id s =? pk then write_student_col col v s else s)
                      (students d)) d)
  end.

Definition academic_item_ok (item : AcademicItem) : Result unit :=
  match item with
  | Item_college_name v =>
      if varchar 200 v then Ok tt
      else Raise (DataError "value too long for type character varying")
  | Item_department v =>
      if varchar 100 v then Ok tt
      else Raise (DataError "value too long for type character varying")
  | Item_graduation_year v =>
      if int4 v then Ok tt else Raise (DataError "integer out of range")
  | Item_cgpa _ => Ok tt
  | Item_backlogs v =>
      if int4 v then Ok tt else Raise (DataError "integer out of range")
  end.

Definition write_academic_item (item : AcademicItem) (r : AcademicDetails.t)
  : AcademicDetails.t :=
  let i := AcademicDetails.id r in
  let sid := AcademicDetails.student_id r in
  match item with
  | Item_college_name v =>
      AcademicDetails.mk i sid v (AcademicDetails.department r)
        (AcademicDetails.graduation_year r) (AcademicDetails.cgpa r) (AcademicDetails.backlogs r)
  | Item_department v =>
      AcademicDetails.mk i sid (AcademicDetails.college_name r) v
        (AcademicDetails.graduation_year r) (AcademicDetails.cgpa r) (AcademicDetails.backlogs r)
  | Item_graduation_year v =>
      AcademicDetails.mk i sid (AcademicDetails.college_name r) (AcademicDetails.department r)
        v (AcademicDetails.cgpa r) (AcademicDetails.backlogs r)
  | Item_cgpa v =>
      AcademicDetails.mk i sid (AcademicDetails.college_name r) (AcademicDetails.department r)
        (AcademicDetails.graduation_year r) v (AcademicDetails.backlogs r)
  | Item_backlogs v =>
      AcademicDetails.mk i sid (AcademicDetails.college_name r) (AcademicDetails.department r)
        (AcademicDetails.graduation_year r) (AcademicDetails.cgpa r) v
  end.

(** UPDATE academic_details SET col = value WHERE id = pk *)
Definition update_academic_row (pk : Z) (item : AcademicItem) (d : Database) : Result Database :=
  match academic_item_ok item with
  | Raise e => Raise e
  | Ok _ =>
      Ok (with_academic_details
            (map (fun a => if AcademicDetails.id a =? pk then write_academic_item item a else a)
                 (academic_details d)) d)
  end.

(** [db.delete(student)] under [cascade="all, delete-orphan"]: the rows of
    both relationships go first, then the student. *)
Definition delete_student_rows (pk : Z) (d : Database) : Database :=
  mkDatabase
    (filter (fun s => negb (Student.id s =? pk)) (students d))
    (filter (fun a => negb (AcademicDetails.student_id a =? pk)) (academic_details d))
    (filter (fun x => negb (Documents.student_id x =? pk)) (documents d))
    (students_id_seq d) (academic_details_id_seq d) (documents_id_seq d).

Definition exec_dml (stmt : Dml) (d : Database) : Result Database :=
  match stmt with
  | Insert_student r => insert_student r d
  | Insert_academic r => insert_academic r d
  | Insert_document r => insert_document r d
  | Set_student pk item => update_student_row pk item d
  | Set_academic pk item => update_academic_row pk item d
  | Delete_student pk => Ok (delete_student_rows pk d)
  end.

(** The statements of the unit of work, in the order they were registered;
    the first one that is refused aborts the flush. *)
Fixpoint flush (stmts : list Dml) (d : Database) : Result Database :=
  match stmts with
  | [] => Ok d
  | stmt :: stmts' =>
      match exec_dml stmt d with
      | Ok d' => flush stmts' d'
      | Raise e => Raise e
      end
  end.

(** ** The session *)

(** [db.commit()]: flush the unit of work and make the result durable.  A
    statement that is refused rolls the transaction back and the exception
    leaves the handler. *)
Definition db_commit : M unit :=
  fun _ st =>
    match flush (pending st) (db st) with
    | Ok d => (Ok tt, mkState d [] (disk st))
    | Raise e => (Raise e, mkState (db st) [] (disk st))
    end.

Definition register (stmt : Dml) : M unit :=
  fun _ st => (Ok tt, mkState (db st) (pending st ++ [stmt]) (disk st)).

(** [db.add(Student(...))].  The object is identified by the primary key
    that the sequence hands out for it; [created_at] takes its default. *)
Definition db_add_student (name email phone gender : string) : M Z :=
  fun env st =>
    let d := db st in
    let pk := students_id_seq d in
    (Ok pk,
     mkState (mkDatabase (students d) (academic_details d) (documents d)
                         (pk + 1) (academic_details_id_seq d) (documents_id_seq d))
             (pending st ++ [Insert_student (Student.mk pk name email phone gender (now env))])
             (disk st)).

Definition db_add_academic (student_id : Z) (college_name department : string)
  (graduation_year : Z) (cgpa : float) (backlogs : Z) : M Z :=
  fun _ st =>
    let d := db st in
    let pk := academic_details_id_seq d in
    (Ok pk,
     mkState (mkDatabase (students d) (academic_details d) (documents d)
                         (students_id_seq d) (pk + 1) (documents_id_seq d))
             (pending st ++ [Insert_academic
                               (AcademicDetails.mk pk student_id college_name department
                                                   graduation_year cgpa backlogs)])
             (disk st)).

Definition db_add_document (student_id : Z) (doc_type file_path : string) : M Z :=
  fun env st =>
    let d := db st in
    let pk := documents_id_seq d in
    (Ok pk,
     mkState (mkDatabase (students d) (academic_details d) (documents d)
                         (students_id_seq d) (academic_details_id_seq d) (pk + 1))
             (pending st ++ [Insert_document
                               (Documents.mk pk student_id doc_type file_path (now env))])
             (disk st)).

(** [setattr(obj, field, value)] on a persistent object. *)
Definition setattr_student (obj : Student.t) (item : StudentItem) : M unit :=
  register (Set_student (Student.id obj) item).

Definition setattr_academic (obj : AcademicDetails.t) (item : AcademicItem) : M unit :=
  register (Set_academic (AcademicDetails.id obj) item).

(** [db.delete(student)] *)
Definition db_delete (obj : Student.t) : M unit :=
  register (Delete_student (Student.id obj)).

(** ** Queries *)

(** [db.query(T).filter(where).all()] *)
Definition query_all {A} (table : Database -> list A) (where_ : A -> bool) : M (list A) :=
  fun env st => (Ok (engine env A (filter where_ (table (db st)))), st).

(** [db.query(T).filter(where).first()] *)
Definition query_first {A} (table : Database -> list A) (where_ : A -> bool)
  : M (option A) :=
  fun env st => (Ok (hd_error (engine env A (filter where_ (table (db st))))), st).

(** [db.refresh(obj)] *)
Definition db_refresh_student (pk : Z) : M Student.t :=
  row <- query_first students (fun s => Student.id s =? pk) ;;
  match row with
  | Some s => ret s
  | None => raise InvalidRequestError
  end.

Definition db_refresh_academic (pk : Z) : M AcademicDetails.t :=
  row <- query_first academic_details (fun a => AcademicDetails.id a =? pk) ;;
  match row with
  | Some a => ret a
  | None => raise InvalidRequestError
  end.

(** The two relationships of a student. *)
Definition academic_details_of (engine : Engine) (d : Database) (pk : Z)
  : list AcademicDetails.t :=
  engine _ (filter (fun a => AcademicDetails.student_id a =? pk) (academic_details d)).

Definition documents_of (engine : Engine) (d : Database) (pk : Z) : list Documents.t :=
  engine _ (filter (fun x => Documents.student_id x =? pk) (documents d)).

(** A student with both collections loaded, as [StudentResponse] reads it
    from the ORM object ([orm_mode]). *)
Definition populate (engine : Engine) (d : Database) (s : Student.t) : StudentResponse.t :=
  StudentResponse.mk (Student.id s) (Student.name s) (Student.email s) (Student.phone s)
    (Student.gender s) (Student.created_at s)
    (academic_details_of engine d (Student.id s))
    (documents_of engine d (Student.id s)).

(** Returning an ORM object from a handler: the response model loads the
    relationships from the session. *)
Definition respond (s : Student.t) : M StudentResponse.t :=
  fun env st => (Ok (populate (engine env) (db st) s), st).

(** The ORM hands out one object per primary key: a row that comes back a
    second time in a result is dropped. *)
Fixpoint unique_from (seen : list Z) (rows : list Student.t) : list Student.t :=
  match rows with
  | [] => []
  | s :: rows' =>
      if existsb (Z.eqb (Student.id s)) seen then unique_from seen rows'
      else s :: unique_from (Student.id s :: seen) rows'
  end.

Definition unique_list (rows : list Student.t) : list Student.t := unique_from [] rows.

(** [.offset(skip).limit(limit)] *)
Definition window {A} (skip limit : Z) (rows : list A) : list A :=
  firstn (Z.to_nat limit) (skipn (Z.to_nat skip) rows).

(** ** Request validation *)

Definition validate (ok : bool) : M unit :=
  if ok then ret tt else raise RequestValidationError.

(** ** The upload directory *)

Definition os_path_exists (path : string) : M bool :=
  fun _ st => (Ok (existsb (fun f => (fst f =? path)%string) (disk st)), st).

Definition os_remove (path : string) : M unit :=
  fun _ st =>
    (Ok tt, mkState (db st) (pending st)
                    (filter (fun f => negb (fst f =? path)%string) (disk st))).

(** [with open(path, "wb") as buffer: shutil.copyfileobj(f, buffer)] *)
Definition write_file (path : string) (content : list Byte.byte) : M unit :=
  fun _ st =>
    (Ok tt, mkState (db st) (pending st)
                    ((path, content)
                       :: filter (fun f => negb (fst f =? path)%string) (disk st))).

Definition UPLOAD_DIR : string := "student_upload_files".

Definition os_path_join (dir file : string) : string :=
  String.append dir (String.append "/" file).

(** [str(n)] for an integer *)
Definition str (n : Z) : string := DecimalString.NilZero.string_of_int (Z.to_int n).

(** ** ILIKE *)

Inductive LikeToken : Type :=
| Any                 (* % *)
| One                 (* _ *)
| Lit (c : ascii).

Definition percent : ascii := "%"%char.
Definition underscore : ascii := "_"%char.
Definition backslash : ascii := "\"%char.

(** The pattern as the matcher reads it: a backslash takes the next
    character literally. *)
Fixpoint like_tokens (pattern : list ascii) : list LikeToken :=
  match pattern with
  | [] => []
  | c :: rest =>
      if (c =? backslash)%char then
        match rest with
        | [] => []
        | c' :: rest' => Lit c' :: like_tokens rest'
        end
      else if (c =? percent)%char then Any :: like_tokens rest
      else if (c =? underscore)%char then One :: like_tokens rest
      else Lit c :: like_tokens rest
  end.

(** A pattern that ends in a lone backslash is refused by the engine.  The
    search handler never builds one: see [search_pattern_well_formed]. *)
Fixpoint dangling_escape (pattern : list ascii) : bool :=
  match pattern with
  | [] => false
  | c :: rest =>
      if (c =? backslash)%char then
        match rest with
        | [] => true
        | _ :: rest' => dangling_escape rest'
        end
      else dangling_escape rest
  end.

Fixpoint like_match (p : list LikeToken) (s : list ascii) {struct p} : bool :=
  match p with
  | [] => match s with [] => true | _ :: _ => false end
  | Any :: p' =>
      (fix skip (s : list ascii) : bool :=
         like_match p' s || match s with [] => false | _ :: s' => skip s' end) s
  | One :: p' =>
      match s with [] => false | _ :: s' => like_match p' s' end
  | Lit c :: p' =>
      match s with [] => false | d :: s' => (c =? d)%char && like_match p' s' end
  end.

(** Case folding of the letters A-Z; any other character, letters outside
    ASCII included, is compared as it is. *)
Definition lower (c : ascii) : ascii :=
  let n := nat_of_ascii c in
  if ((65 <=? n) && (n <=? 90))%nat then ascii_of_nat (n + 32) else c.

Definition lower_string (s : string) : list ascii := map lower (list_ascii_of_string s).

(** [column.ilike(pattern)] *)
Definition ilike (value pattern : string) : bool :=
  like_match (like_tokens (lower_string pattern)) (lower_string value).

(** [f"%{text}%"] *)
Definition contains_pattern (text : string) : string :=
  String.append "%" (String.append text "%").

(** ** Student CRUD operations (main.py, lines 267-417) *)

Definition create_student (student : StudentCreate.t) : M StudentResponse.t :=
  existing_student <-
    query_first students
      (fun s => (Student.email s =? StudentCreate.email student)%string) ;;
  match existing_student with
  | Some _ => raise (HTTPException 400 "Email already registered")
  | None =>
      db_student <- db_add_student (StudentCreate.name student)
                                   (StudentCreate.email student)
                                   (StudentCreate.phone student)
                                   (StudentCreate.gender student) ;;
      db_commit ;;
      db_student <- db_refresh_student db_student ;;
      let academic := StudentCreate.academic_details student in
      db_academic <- db_add_academic (Student.id db_student)
                                     (AcademicDetailsBase.college_name academic)
                                     (AcademicDetailsBase.department academic)
                                     (AcademicDetailsBase.graduation_year academic)
                                     (AcademicDetailsBase.cgpa academic)
                                     (AcademicDetailsBase.backlogs academic) ;;
      db_commit ;;
      _ <- db_refresh_academic db_academic ;;
      respond db_student
  end.

(** [joinedload] of both relationships under [offset]/[limit]: the window
    is cut on the rows of the base query, the relationships are joined to
    what is left, and the ORM keeps one object per student. *)
Definition load_page (engine : Engine) (d : Database) (rows : list Student.t)
  : list StudentResponse.t :=
  map (populate engine d) (unique_list rows).

Definition get_students (skip limit : Z) : M (list StudentResponse.t) :=
  validate (0 <=? skip) ;;
  validate ((1 <=? limit) && (limit <=? 100)) ;;
  fun env st =>
    let d := db st in
    let query := students d in
    (Ok (load_page (engine env) d (window skip limit (engine env _ query))), st).

(** [db.query(Student).join(AcademicDetails)]: one row per pair of a
    student and one of its academic rows. *)
Definition join_academic (d : Database) : list (Student.t * AcademicDetails.t) :=
  flat_map
    (fun s =>
       map (fun a => (s, a))
           (filter (fun a => AcademicDetails.student_id a =? Student.id s)
                   (academic_details d)))
    (students d).

Definition search_students (college : option string) (year : option Z)
  (department : option string) (skip limit : Z) : M (list StudentResponse.t) :=
  validate (0 <=? skip) ;;
  validate ((1 <=? limit) && (limit <=? 100)) ;;
  fun env st =>
    let d := db st in
    let query := join_academic d in
    let query :=
      match college with
      | Some c =>
          if (c =? "")%string then query
          else filter (fun r => ilike (AcademicDetails.college_name (snd r))
                                      (contains_pattern c)) query
      | None => query
      end in
    let query :=
      match year with
      | Some y =>
          if y =? 0 then query
          else filter (fun r => AcademicDetails.graduation_year (snd r) =? y) query
      | None => query
      end in
    let query :=
      match department with
      | Some dep =>
          if (dep =? "")%string then query
          else filter (fun r => ilike (AcademicDetails.department (snd r))
                                      (contains_pattern dep)) query
      | None => query
      end in
    (Ok (load_page (engine env) d (map fst (window skip limit (engine env _ query)))), st).

Definition get_student (student_id : Z) : M StudentResponse.t :=
  student <- query_first students (fun s => Student.id s =? student_id) ;;
  match student with
  | None => raise (HTTPException 404 "Student not found")
  | Some student => respond student
  end.

(** [student_update.dict(exclude_unset=True, exclude={"academic_details"})] *)
Definition dict_exclude_unset (u : StudentUpdate.t) : list StudentItem :=
  let item (col : StudentCol) (field : option (option string)) : list StudentItem :=
    match field with
    | Some value => [(col, value)]
    | None => []
    end in
  item Col_name (StudentUpdate.name u) ++ item Col_email (StudentUpdate.email u)
  ++ item Col_phone (StudentUpdate.phone u) ++ item Col_gender (StudentUpdate.gender u).

(** [student_update.academic_details]: [None] when the field was omitted
    and when it was sent as [null]. *)
Definition academic_details_attr (u : StudentUpdate.t) : option AcademicDetailsBase.t :=
  match StudentUpdate.academic_details u with
  | Some (Some a) => Some a
  | _ => None
  end.

(** [student_update.academic_details.dict()] *)
Definition academic_dict (a : AcademicDetailsBase.t) : list AcademicItem :=
  [ Item_college_name (AcademicDetailsBase.college_name a);
    Item_department (AcademicDetailsBase.department a);
    Item_graduation_year (AcademicDetailsBase.graduation_year a);
    Item_cgpa (AcademicDetailsBase.cgpa a);
    Item_backlogs (AcademicDetailsBase.backlogs a) ].

Definition update_student (student_id : Z) (student_update : StudentUpdate.t)
  : M StudentResponse.t :=
  student <- query_first students (fun s => Student.id s =? student_id) ;;
  match student with
  | None => raise (HTTPException 404 "Student not found")
  | Some student =>
      let update_data := dict_exclude_unset student_update in
      for_each update_data (fun item => setattr_student student item) ;;
      match academic_details_attr student_update with
      | Some details =>
          academic <- query_first academic_details
                        (fun a => AcademicDetails.student_id a =? student_id) ;;
          match academic with
          | Some academic =>
              let academic_data := academic_dict details in
              for_each academic_data (fun item => setattr_academic academic item)
          | None => ret tt
          end
      | None => ret tt
      end ;;
      db_commit ;;
      student <- db_refresh_student (Student.id student) ;;
      respond student
  end.

Definition delete_student (student_id : Z) : M string :=
  student <- query_first students (fun s => Student.id s =? student_id) ;;
  match student with
  | None => raise (HTTPException 404 "Student not found")
  | Some student =>
      docs <- query_all documents (fun x => Documents.student_id x =? Student.id student) ;;
      for_each docs
        (fun doc =>
           present <- os_path_exists (Documents.file_path doc) ;;
           if present then os_remove (Documents.file_path doc) else ret tt) ;;
      db_delete student ;;
      db_commit ;;
      ret "Student deleted successfully"
  end.

(** ** File upload and download (main.py, lines 422-493) *)

(** [resume] is a required upload, so [if resume:] always holds; [id_proof]
    is [None] when it was not sent. *)
Definition upload_documents (student_id : Z) (resume : UploadFile.t)
  (id_proof : option UploadFile.t) : M (string * list (string * string)) :=
  student <- query_first students (fun s => Student.id s =? student_id) ;;
  match student with
  | None => raise (HTTPException 404 "Student not found")
  | Some _ =>
      let resume_filename :=
        String.append "student_"
          (String.append (str student_id)
             (String.append "_resume_" (UploadFile.filename resume))) in
      let resume_path := os_path_join UPLOAD_DIR resume_filename in
      write_file resume_path (UploadFile.file resume) ;;
      _ <- db_add_document student_id "resume" resume_path ;;
      let uploaded_files := [("resume", UploadFile.filename resume)] in
      uploaded_files <-
        match id_proof with
        | Some id_proof =>
            let id_filename :=
              String.append "student_"
                (String.append (str student_id)
                   (String.append "_id_" (UploadFile.filename id_proof))) in
            let id_path := os_path_join UPLOAD_DIR id_filename in
            write_file id_path (UploadFile.file id_proof) ;;
            _ <- db_add_document student_id "id_proof" id_path ;;
            ret (uploaded_files ++ [("id_proof", UploadFile.filename id_proof)])
        | None => ret uploaded_files
        end ;;
      db_commit ;;
      ret ("Files uploaded successfully", uploaded_files)
  end.

(** The answer is the path that [FileResponse] serves and the download
    name. *)
Definition download_document (student_id doc_id : Z) : M (string * string) :=
  document <- query_first documents
                (fun x => (Documents.id x =? doc_id)
                          && (Documents.student_id x =? student_id)) ;;
  match document with
  | None => raise (HTTPException 404 "Document not found")
  | Some document =>
      present <- os_path_exists (Documents.file_path document) ;;
      if negb present then raise (HTTPException 404 "File not found on server")
      else ret (Documents.file_path document,
                String.append (Documents.doc_type document)
                  (String.append "_" (String.append (str student_id) ".pdf")))
  end.

(** ** Requests *)

(** What outlives a request. *)
Record World : Type := mkWorld {
  store : Database;
  uploads : Files
}.

(** One request: [get_db] opens a session for the handler and closes it on
    every exit, which drops whatever was not committed. *)
Definition request {A} (handler : M A) (engine : Engine) (now : Z) (w : World)
  : Result A * World :=
  let (r, st) := handler (mkEnv engine now) (mkState (store w) [] (uploads w)) in
  (r, mkWorld (db st) (disk st)).

(** Every operation a caller can ask for. *)
Inductive Operation : Type :=
| Create_student (student : StudentCreate.t)
| Get_students (skip limit : Z)
| Search_students (college : option string) (year : option Z) (department : option string)
                  (skip limit : Z)
| Get_student (student_id : Z)
| Update_student (student_id : Z) (student_update : StudentUpdate.t)
| Delete_student_op (student_id : Z)
| Upload_documents (student_id : Z) (resume : UploadFile.t) (id_proof : option UploadFile.t)
| Download_document (student_id doc_id : Z).

(** The world an operation leaves behind, whatever it answered. *)
Definition perform (op : Operation) (engine : Engine) (now : Z) (w : World) : World :=
  match op with
  | Create_student student => snd (request (create_student student) engine now w)
  | Get_students skip limit => snd (request (get_students skip limit) engine now w)
  | Search_students college year department skip limit =>
      snd (request (search_students college year department skip limit) engine now w)
  | Get_student student_id => snd (request (get_student student_id) engine now w)
  | Update_student student_id student_update =>
      snd (request (update_student student_id student_update) engine now w)
  | Delete_student_op student_id => snd (request (delete_student student_id) engine now w)
  | Upload_documents student_id resume id_proof =>
      snd (request (upload_documents student_id resume id_proof) engine now w)
  | Download_document student_id doc_id =>
      snd (request (download_document student_id doc_id) engine now w)
  end.

(** ** Properties of stores and results *)

(** Every academic row and every document belongs to a student of the
    store. *)
Definition no_orphans (d : Database) : Prop :=
  (forall a, In a (academic_details d) ->
             student_exists (AcademicDetails.student_id a) d = true)
  /\ (forall x, In x (documents d) ->
                student_exists (Documents.student_id x) d = true).

(** The student has no academic row. *)
Definition without_academics (d : Database) (pk : Z) : Prop :=
  forall a, In a (academic_details d) -> AcademicDetails.student_id a <> pk.

Definition response_ids (page : list StudentResponse.t) : list Z :=
  map StudentResponse.id page.






(** A filter value that Python takes for false is as good as no filter. *)
Definition truthy_text (f : option string) : option string :=
  match f with
  | Some s => if (s =? "")%string then None else Some s
  | None => None
  end.

Definition truthy_year (f : option Z) : option Z :=
  match f with
  | Some y => if y =? 0 then None else Some y
  | None => None
  end.

(** What an update may do to a student row: the key and the creation time
    stay, and so does every column the request did not send. *)
Definition student_frame (u : StudentUpdate.t) (old new : Student.t) : Prop :=
  Student.id new = Student.id old
  /\ Student.created_at new = Student.created_at old
  /\ (StudentUpdate.name u = None -> Student.name new = Student.name old)
  /\ (StudentUpdate.email u = None -> Student.email new = Student.email old)
  /\ (StudentUpdate.phone u = None -> Student.phone new = Student.phone old)
  /\ (StudentUpdate.gender u = None -> Student.gender new = Student.gender old).

(** The academic row [old] with all five values taken from [details]. *)
Definition replace_academic (details : AcademicDetailsBase.t) (old : AcademicDetails.t)
  : AcademicDetails.t :=
  AcademicDetails.mk (AcademicDetails.id old) (AcademicDetails.student_id old)
    (AcademicDetailsBase.college_name details) (AcademicDetailsBase.department details)
    (AcademicDetailsBase.graduation_year details) (AcademicDetailsBase.cgpa details)
    (AcademicDetailsBase.backlogs details).


(** ** Sample data *)


Definition empty_database : Database := mkDatabase [] [] [] 1 1 1.

Definition empty_world : World := mkWorld empty_database [].

Definition rahul_academics : AcademicDetailsBase.t :=
  AcademicDetailsBase.mk "Indian Institute of Technology Delhi" "Computer Science" 2024
                         (QArith_base.Qmake 17 2) 0.

Definition rahul : StudentCreate.t :=
  StudentCreate.mk "Rahul Sharma" "rahul.sharma@email.com" "+91-9876543210" "Male"
                   rahul_academics.

Definition priya : StudentCreate.t :=
  StudentCreate.mk "Priya Patel" "priya.patel@email.com" "+91-9876543211" "Female"
    (AcademicDetailsBase.mk "Delhi University" "Information Technology" 2025
                            (QArith_base.Qmake 91 10) 0).

(** A request that the boundary accepts ([graduation_year: int]) and whose
    year does not fit the INTEGER column. *)
Definition amit_year_overflow : StudentCreate.t :=
  StudentCreate.mk "Amit Kumar" "amit.kumar@email.com" "+91-9876543212" "Male"
    (AcademicDetailsBase.mk "Jawaharlal Nehru University" "Electronics" 2147483648
                            (QArith_base.Qmake 39 5) 1).

(** The store after Rahul was created, and after Priya was created too. *)
Definition one_student : World :=
  snd (request (create_student rahul) seq_scan 1000 empty_world).

Definition two_students : World :=
  snd (request (create_student priya) seq_scan 1001 one_student).

(** Two students, the first with a resume on file. *)
Definition with_resume : World :=
  snd (request (upload_documents 1 (UploadFile.mk "cv.pdf" []) None) seq_scan 1002
               two_students).

(** A student row without any academic row, as a failed creation leaves it. *)
Definition bare_student : World :=
  snd (request (create_student amit_year_overflow) seq_scan 1000 empty_world).

(** The rows that the query of [search_students] selects, before the
    engine orders them and the window is cut. *)
Definition search_rows (college : option string) (year : option Z)
  (department : option string) (d : Database) : list (Student.t * AcademicDetails.t) :=
  let query := join_academic d in
  let query :=
    match college with
    | Some c =>
        if (c =? "")%string then query
        else filter (fun r => ilike (AcademicDetails.college_name (snd r))
                                    (contains_pattern c)) query
    | None => query
    end in
  let query :=
    match year with
    | Some y =>
        if y =? 0 then query
        else filter (fun r => AcademicDetails.graduation_year (snd r) =? y) query
    | None => query
    end in
  match department with
  | Some dep =>
      if (dep =? "")%string then query
      else filter (fun r => ilike (AcademicDetails.department (snd r))
                                  (contains_pattern dep)) query
  | None => query
  end.

(** A computation of a handler never leaves an orphan in the durable store
    when there was none. *)
Definition keeps_no_orphans {A} (m : M A) : Prop :=
  forall env st r st',
    m env st = (r, st') -> no_orphans (db st) -> no_orphans (db st').

(** [delete_student] removes the files of the documents before it deletes
    the rows. *)
Definition remove_file_of (doc : Documents.t) : M unit :=
  present <- os_path_exists (Documents.file_path doc) ;;
  if present then os_remove (Documents.file_path doc) else ret tt.

(** An update that sends an academic sub-object and nothing else. *)
Definition new_academics : AcademicDetailsBase.t :=
  AcademicDetailsBase.mk "BITS Pilani" "Electronics" 2026 (QArith_base.Qmake 9 1) 2.

Definition academics_only : StudentUpdate.t :=
  StudentUpdate.mk None None None None (Some (Some new_academics)).


(** The unit of work that [update_student] has registered when it commits,
    for the student row [student] it found. *)
Definition update_statements (e : Engine) (d : Database) (student_id : Z)
  (u : StudentUpdate.t) (student : Student.t) : list Dml :=
  map (Set_student (Student.id student)) (dict_exclude_unset u)
  ++ match academic_details_attr u with
     | Some details =>
         match hd_error (academic_details_of e d student_id) with
         | Some academic =>
             map (Set_academic (AcademicDetails.id academic)) (academic_dict details)
         | None => []
         end
     | None => []
     end.

(** What assignments to the columns [cols] of the student [pk] may do to a
    row of [students]. *)
Definition row_update (pk : Z) (cols : list StudentCol) (old new : Student.t) : Prop :=
  Student.id new = Student.id old
  /\ Student.created_at new = Student.created_at old
  /\ (~ In Col_name cols -> Student.name new = Student.name old)
  /\ (~ In Col_email cols -> Student.email new = Student.email old)
  /\ (~ In Col_phone cols -> Student.phone new = Student.phone old)
  /\ (~ In Col_gender cols -> Student.gender new = Student.gender old)
  /\ (Student.id old <> pk -> new = old).

(** ** Startup seeding (main.py, lines 504-640) *)

(** [db.query(T).count()] *)
Definition query_count {A} (table : Database -> list A) : M Z :=
  fun _ st => (Ok (Z.of_nat (List.length (table (db st)))), st).

(** [try: body / except Exception: handler] *)
Definition try_except {A} (body : M A) (handler : Exc -> M A) : M A :=
  fun env st =>
    match body env st with
    | (Ok a, st') => (Ok a, st')
    | (Raise exc, st') => handler exc env st'
    end.

(** [db.rollback()] *)
Definition db_rollback : M unit :=
  fun _ st => (Ok tt, mkState (db st) [] (disk st)).

(** One turn of the seeding loop: the student is committed at once, its
    academic row is only added and waits for the next commit. *)
Definition seed_one (student_data : StudentCreate.t) : M unit :=
  db_student <- db_add_student (StudentCreate.name student_data)
                               (StudentCreate.email student_data)
                               (StudentCreate.phone student_data)
                               (StudentCreate.gender student_data) ;;
  db_commit ;;
  db_student <- db_refresh_student db_student ;;
  let academic := StudentCreate.academic_details student_data in
  _ <- db_add_academic (Student.id db_student)
                       (AcademicDetailsBase.college_name academic)
                       (AcademicDetailsBase.department academic)
                       (AcademicDetailsBase.graduation_year academic)
                       (AcademicDetailsBase.cgpa academic)
                       (AcademicDetailsBase.backlogs academic) ;;
  ret tt.

(** [create_dummy_data].  The list [all_students] of the source is five
    literal records followed by twenty whose grade is computed in floating
    point; the handler is modelled for any such list. *)
Definition create_dummy_data (all_students : list StudentCreate.t) : M unit :=
  count <- query_count students ;;
  if count >? 0 then ret tt
  else
    try_except
      (for_each all_students seed_one ;;
       db_commit)
      (fun _ => db_rollback).

(** ** Integrity of a store *)

(** Primary keys and emails are unique. *)
Definition unique_keys (d : Database) : Prop :=
  NoDup (map Student.id (students d))
  /\ NoDup (map Student.email (students d))
  /\ NoDup (map AcademicDetails.id (academic_details d))
  /\ NoDup (map Documents.id (documents d)).

Definition student_fits (s : Student.t) : Prop :=
  varchar 100 (Student.name s) = true /\ varchar 100 (Student.email s) = true
  /\ varchar 15 (Student.phone s) = true /\ varchar 10 (Student.gender s) = true.

Definition academic_fits (a : AcademicDetails.t) : Prop :=
  varchar 200 (AcademicDetails.college_name a) = true
  /\ varchar 100 (AcademicDetails.department a) = true
  /\ int4 (AcademicDetails.graduation_year a) = true
  /\ int4 (AcademicDetails.backlogs a) = true.

(** Every row fits the declared width and range of its columns. *)
Definition columns_fit (d : Database) : Prop :=
  Forall student_fits (students d)
  /\ Forall academic_fits (academic_details d)
  /\ Forall (fun x => varchar 50 (Documents.doc_type x) = true) (documents d).

(** Every key in use was handed out by its sequence. *)
Definition sequences_ahead (d : Database) : Prop :=
  (forall s, In s (students d) -> Student.id s < students_id_seq d)
  /\ (forall a, In a (academic_details d) -> AcademicDetails.id a < academic_details_id_seq d)
  /\ (forall x, In x (documents d) -> Documents.id x < documents_id_seq d).

(** So was the key of every insertion that waits in a unit of work. *)
Definition insert_below (d : Database) (stmt : Dml) : Prop :=
  match stmt with
  | Insert_student r => Student.id r < students_id_seq d
  | Insert_academic r => AcademicDetails.id r < academic_details_id_seq d
  | Insert_document r => Documents.id r < documents_id_seq d
  | _ => True
  end.

Definition well_formed (d : Database) : Prop :=
  unique_keys d /\ columns_fit d /\ no_orphans d /\ sequences_ahead d.

Definition session_ok (st : State) : Prop :=
  well_formed (db st) /\ Forall (insert_below (db st)) (pending st).

(** A computation of a handler keeps the property [I] of sessions. *)
Definition maintains {A} (I : State -> Prop) (m : M A) : Prop :=
  forall env st r st', m env st = (r, st') -> I st -> I st'.

(** The worlds that a sequence of operations can make of the empty one. *)
Inductive reachable : World -> Prop :=
| reachable_empty : reachable empty_world
| reachable_step (op : Operation) (e : Engine) (now : Z) (w : World) :
    Engine_ok e -> reachable w -> reachable (perform op e now w).

(** The values of a creation request fit their columns. *)
Definition request_fits (student : StudentCreate.t) : bool :=
  varchar 100 (StudentCreate.name student) && varchar 100 (StudentCreate.email student)
  && varchar 15 (StudentCreate.phone student) && varchar 10 (StudentCreate.gender student)
  && varchar 200 (AcademicDetailsBase.college_name (StudentCreate.academic_details student))
  && varchar 100 (AcademicDetailsBase.department (StudentCreate.academic_details student))
  && int4 (AcademicDetailsBase.graduation_year (StudentCreate.academic_details student))
  && int4 (AcademicDetailsBase.backlogs (StudentCreate.academic_details student)).

(** The rows that a creation request becomes. *)
Definition student_row (pk now : Z) (student : StudentCreate.t) : Student.t :=
  Student.mk pk (StudentCreate.name student) (StudentCreate.email student)
             (StudentCreate.phone student) (StudentCreate.gender student) now.

Definition academic_row (pk student_id : Z) (student : StudentCreate.t)
  : AcademicDetails.t :=
  let academic := StudentCreate.academic_details student in
  AcademicDetails.mk pk student_id
    (AcademicDetailsBase.college_name academic) (AcademicDetailsBase.department academic)
    (AcademicDetailsBase.graduation_year academic) (AcademicDetailsBase.cgpa academic)
    (AcademicDetailsBase.backlogs academic).

(** ** What a handler leaves in place *)

(** Each table of [d] is the table of [d0] with rows added at its end. *)
Definition extends (d0 d : Database) : Prop :=
  exists new_students new_academics new_documents,
    students d = students d0 ++ new_students
    /\ academic_details d = academic_details d0 ++ new_academics
    /\ documents d = documents d0 ++ new_documents.

Definition is_insert (stmt : Dml) : Prop :=
  match stmt with
  | Insert_student _ | Insert_academic _ | Insert_document _ => True
  | _ => False
  end.

(** A session that has only inserted, and only has insertions waiting. *)
Definition inserting (d0 : Database) (st : State) : Prop :=
  extends d0 (db st) /\ Forall is_insert (pending st).

(** The row [s] after the assignments [items], in their order. *)
Definition assign_items (items : list StudentItem) (s : Student.t) : Student.t :=
  fold_left (fun row item =>
               match item with
               | (col, Some v) => write_student_col col v row
               | (_, None) => row
               end) items s.

(** The file belongs to a document of the student. *)
Definition file_of_student (d : Database) (student_id : Z) (f : string * list Byte.byte)
  : bool :=
  existsb (fun x => (Documents.student_id x =? student_id)
                    && (fst f =? Documents.file_path x)%string)
          (documents d).

(** The names under which [upload_documents] stores its two files. *)
Definition resume_path (student_id : Z) (resume : UploadFile.t) : string :=
  os_path_join UPLOAD_DIR
    (String.append "student_"
       (String.append (str student_id)
          (String.append "_resume_" (UploadFile.filename resume)))).

Definition id_proof_path (student_id : Z) (id_proof : UploadFile.t) : string :=
  os_path_join UPLOAD_DIR
    (String.append "student_"
       (String.append (str student_id)
          (String.append "_id_" (UploadFile.filename id_proof)))).

(** [f"{doc_type}_{student_id}.pdf"] *)
Definition download_name (doc_type : string) (student_id : Z) : string :=
  String.append doc_type (String.append "_" (String.append (str student_id) ".pdf")).

(** ** The seeding loop *)

(** The rows that the seeding makes of its list, keys counted from [pk]
    and [apk]. *)
Fixpoint seeded (pk apk clock : Z) (seeds : list StudentCreate.t)
  : list (Student.t * AcademicDetails.t) :=
  match seeds with
  | [] => []
  | x :: rest =>
      (student_row pk clock x, academic_row apk pk x) :: seeded (pk + 1) (apk + 1) clock rest
  end.

(** Between two turns of the loop the academic row of the last student is
    still waiting to be inserted. *)
Definition waiting (prev : option AcademicDetails.t) : list AcademicDetails.t :=
  match prev with
  | Some a => [a]
  | None => []
  end.

(** The state of the loop after the list [seeds], started in the store [d]
    with [prev] waiting. *)
Fixpoint seed_loop (clock : Z) (seeds : list StudentCreate.t) (d : Database)
  (prev : option AcademicDetails.t) : Database * option AcademicDetails.t :=
  match seeds with
  | [] => (d, prev)
  | x :: rest =>
      let pk := students_id_seq d in
      let apk := academic_details_id_seq d in
      seed_loop clock rest
        (mkDatabase (students d ++ [student_row pk clock x])
                    (academic_details d ++ waiting prev) (documents d)
                    (pk + 1) (apk + 1) (documents_id_seq d))
        (Some (academic_row apk pk x))
  end.

(** What the loop needs to go through. *)
Definition seed_ready (d : Database) (prev : option AcademicDetails.t)
  (seeds : list StudentCreate.t) : Prop :=
  sequences_ahead d
  /\ (forall a, prev = Some a ->
        varchar 200 (AcademicDetails.college_name a) = true
        /\ varchar 100 (AcademicDetails.department a) = true
        /\ int4 (AcademicDetails.graduation_year a) = true
        /\ int4 (AcademicDetails.backlogs a) = true
        /\ AcademicDetails.id a < academic_details_id_seq d
        /\ (forall a', In a' (academic_details d) -> AcademicDetails.id a' < AcademicDetails.id a)
        /\ student_exists (AcademicDetails.student_id a) d = true)
  /\ Forall (fun x => request_fits x = true) seeds
  /\ NoDup (map StudentCreate.email seeds)
  /\ (forall s x, In s (students d) -> In x seeds ->
                  Student.email s <> StudentCreate.email x).

(** * Verification *)

(** ** The engine *)

Lemma seq_scan_ok : Engine_ok seq_scan.
Proof. intros A l. apply Permutation_refl. Qed.


Section EngineFacts.

Variable e : Engine.
Hypothesis e_ok : Engine_ok e.

Lemma engine_nil (A : Type) : e A [] = [].
Proof.
  apply Permutation_nil, Permutation_sym, e_ok.
Qed.

Lemma engine_in (A : Type) (l : list A) (x : A) : In x (e A l) <-> In x l.
Proof.
  split; intros H.
  - eapply Permutation_in; [apply e_ok | exact H].
  - eapply Permutation_in; [apply Permutation_sym, e_ok | exact H].
Qed.

Lemma engine_first_in (A : Type) (l : list A) (x : A) :
  hd_error (e A l) = Some x -> In x l.
Proof.
  intros H. apply engine_in.
  destruct (e A l) as [|y t]; simpl in H; [discriminate|].
  injection H as ->. now left.
Qed.

Lemma engine_first_some (A : Type) (l : list A) (x : A) :
  In x l -> exists y, hd_error (e A l) = Some y.
Proof.
  intros H. apply engine_in in H.
  destruct (e A l) as [|y t]; [destruct H | now exists y].
Qed.

End EngineFacts.

Lemma world_eta (w : World) : mkWorld (store w) (uploads w) = w.
Proof. now destruct w. Qed.

(** ** Pagination bounds *)

(** C8: a call of [get_students] with skip < 0, limit < 1 or limit > 100 is
    answered with the validation error and no data, whatever the store
    holds; nothing is clamped and nothing is written. *)
Theorem get_students_rejects_out_of_range (e : Engine) (now : Z) (w : World)
  (skip limit : Z) :
  skip < 0 \/ limit < 1 \/ limit > 100 ->
  request (get_students skip limit) e now w = (Raise InvalidParameter, w).
Proof.
  intros H. unfold request, get_students, bind, validate; simpl.
  destruct (0 <=? skip) eqn:Hs; simpl.
  - destruct ((1 <=? limit) && (limit <=? 100)) eqn:Hl; simpl.
    + apply andb_prop in Hl. destruct Hl as [H1 H2]. lia.
    + now rewrite world_eta.
  - now rewrite world_eta.
Qed.

Lemma get_students_rejects_out_of_range_witness :
  request (get_students 0 0) seq_scan 0 two_students = (Raise InvalidParameter, two_students)
  /\ request (get_students 0 101) seq_scan 0 two_students
     = (Raise InvalidParameter, two_students).
Proof.
  split; apply get_students_rejects_out_of_range; lia.
Defined.

(** ** Creation *)

(** C3: when a student of the store already has the email of the request
    (compared character by character), [create_student] answers "Email
    already registered" and the store is what it was: no student row and no
    academic row was added. *)
Theorem create_student_duplicate_email (e : Engine) (now : Z) (w : World)
  (student : StudentCreate.t) :
  Engine_ok e ->
  (exists s, In s (students (store w))
             /\ Student.email s = StudentCreate.email student) ->
  request (create_student student) e now w = (Raise DuplicateEmail, w).
Proof.
  intros He [s [Hin Hmail]].
  unfold request, create_student, bind, query_first, raise; simpl.
  destruct (engine_first_some e He _
              (filter (fun s0 => (Student.email s0 =? StudentCreate.email student)%string)
                      (students (store w))) s) as [y Hy].
  { apply filter_In. split; [exact Hin|]. now apply String.eqb_eq. }
  rewrite Hy. simpl. now rewrite world_eta.
Qed.

Lemma create_student_duplicate_email_witness :
  request (create_student rahul) seq_scan 2000 two_students
  = (Raise DuplicateEmail, two_students).
Proof.
  apply create_student_duplicate_email.
  - intros A l. apply Permutation_refl.
  - eexists. split; [left; reflexivity | reflexivity].
Defined.

(** C1, at a request whose graduation year does not fit the INTEGER column:
    [create_student] commits the student row on its own, the insertion of
    the academic row is then refused, the request fails, and the student
    row stays in the store without any academic row. *)
Theorem create_student_partial_commit :
  fst (request (create_student amit_year_overflow) seq_scan 1000 empty_world)
  = Raise (DataError "integer out of range")
  /\ students (store bare_student)
     = [Student.mk 1 "Amit Kumar" "amit.kumar@email.com" "+91-9876543212" "Male" 1000]
  /\ academic_details (store bare_student) = []
  /\ fst (request (get_student 1) seq_scan 1001 bare_student)
     = Ok (StudentResponse.mk 1 "Amit Kumar" "amit.kumar@email.com" "+91-9876543212"
                              "Male" 1000 [] []).
Proof.
  repeat split; vm_compute; reflexivity.
Qed.

(** ** Pages *)











(** ** ILIKE on plain text *)

Lemma like_match_any_nil (p : list LikeToken) :
  like_match (Any :: p) [] = like_match p [] || false.
Proof. reflexivity. Qed.

Lemma like_match_any_cons (p : list LikeToken) (c : ascii) (s : list ascii) :
  like_match (Any :: p) (c :: s) = like_match p (c :: s) || like_match (Any :: p) s.
Proof. reflexivity. Qed.

Lemma like_match_any (p : list LikeToken) (s : list ascii) :
  like_match (Any :: p) s = true
  <-> exists before rest, s = before ++ rest /\ like_match p rest = true.
Proof.
  induction s as [|c s IH].
  - rewrite like_match_any_nil, orb_false_r. split.
    + intros H. now exists [], [].
    + intros [before [rest [Heq H]]].
      symmetry in Heq. apply app_eq_nil in Heq. destruct Heq as [_ ->]. exact H.
  - rewrite like_match_any_cons, orb_true_iff, IH. split.
    + intros [H | [before [rest [Heq H]]]].
      * now exists [], (c :: s).
      * exists (c :: before), rest. split; [now rewrite Heq | exact H].
    + intros [[|b before] [rest [Heq H]]]; simpl in Heq.
      * left. now rewrite Heq.
      * right. injection Heq as _ Heq. now exists before, rest.
Qed.



Lemma list_ascii_of_append (a b : string) :
  list_ascii_of_string (String.append a b)
  = list_ascii_of_string a ++ list_ascii_of_string b.
Proof.
  induction a as [|c a IH]; simpl; [reflexivity | now rewrite IH].
Qed.

Lemma lower_contains_pattern (text : string) :
  lower_string (contains_pattern text) = percent :: lower_string text ++ [percent].
Proof.
  unfold lower_string, contains_pattern.
  rewrite !list_ascii_of_append, !map_app. reflexivity.
Qed.




(** The pattern that the search builds never ends in a lone backslash, so
    the engine never refuses it. *)
Lemma dangling_escape_percent (l : list ascii) : dangling_escape (l ++ [percent]) = false.
Proof.
  assert (H : forall n l, (List.length l <= n)%nat -> dangling_escape (l ++ [percent]) = false).
  { clear l. induction n as [|n IH]; intros l Hlen.
    - destruct l; [reflexivity | simpl in Hlen; lia].
    - destruct l as [|c l]; [reflexivity|]. simpl.
      destruct (c =? backslash)%char.
      + destruct l as [|c' l]; [reflexivity|]. simpl. apply IH. simpl in Hlen. lia.
      + apply IH. simpl in Hlen. lia. }
  now apply (H (List.length l)).
Qed.

Lemma search_pattern_well_formed (text : string) :
  dangling_escape (lower_string (contains_pattern text)) = false.
Proof.
  rewrite lower_contains_pattern.
  change (percent :: lower_string text ++ [percent])
    with ((percent :: lower_string text) ++ [percent]).
  apply dangling_escape_percent.
Qed.

(** ** Search *)

Lemma join_academic_in (d : Database) (s : Student.t) (a : AcademicDetails.t) :
  In (s, a) (join_academic d)
  <-> In s (students d) /\ In a (academic_details d)
      /\ AcademicDetails.student_id a = Student.id s.
Proof.
  unfold join_academic. rewrite in_flat_map. split.
  - intros [s' [Hs Hin]]. apply in_map_iff in Hin. destruct Hin as [a' [Heq Ha]].
    injection Heq as -> ->. apply filter_In in Ha. destruct Ha as [Ha Hid].
    apply Z.eqb_eq in Hid. auto.
  - intros [Hs [Ha Hid]]. exists s. split; [exact Hs|].
    apply in_map. apply filter_In. split; [exact Ha | now apply Z.eqb_eq].
Qed.





(** Whatever the filters hold, the selected rows are rows of the join. *)
Lemma search_rows_incl (college : option string) (year : option Z)
  (department : option string) (d : Database) (r : Student.t * AcademicDetails.t) :
  In r (search_rows college year department d) -> In r (join_academic d).
Proof.
  unfold search_rows. intros H.
  destruct department as [dep|]; [destruct (dep =? "")%string|];
    try (apply filter_In in H; destruct H as [H _]);
    (destruct year as [y|]; [destruct (y =? 0)|];
     try (apply filter_In in H; destruct H as [H _]);
     (destruct college as [c|]; [destruct (c =? "")%string|];
      try (apply filter_In in H; destruct H as [H _]); exact H)).
Qed.

Lemma window_incl {A} (skip limit : Z) (rows : list A) (x : A) :
  In x (window skip limit rows) -> In x rows.
Proof.
  unfold window. intros H.
  rewrite <- (firstn_skipn (Z.to_nat skip) rows). apply in_or_app. right.
  rewrite <- (firstn_skipn (Z.to_nat limit) (skipn (Z.to_nat skip) rows)).
  apply in_or_app. now left.
Qed.

Lemma unique_from_incl (seen : list Z) (rows : list Student.t) (s : Student.t) :
  In s (unique_from seen rows) -> In s rows.
Proof.
  revert seen. induction rows as [|t rows IH]; intros seen H; simpl in *; [exact H|].
  destruct (existsb (Z.eqb (Student.id t)) seen).
  - right. eapply IH, H.
  - destruct H as [-> | H]; [now left | right; eapply IH, H].
Qed.

Lemma search_students_inv (e : Engine) (now : Z) (w w' : World)
  (college : option string) (year : option Z) (department : option string)
  (skip limit : Z) (page : list StudentResponse.t) :
  request (search_students college year department skip limit) e now w = (Ok page, w') ->
  w' = w
  /\ page = load_page e (store w)
              (map fst (window skip limit
                          (e _ (search_rows college year department (store w))))).
Proof.
  unfold request, search_students, bind, validate; simpl.
  destruct (0 <=? skip); simpl; [|discriminate].
  destruct ((1 <=? limit) && (limit <=? 100)); simpl; [|discriminate].
  intros H. injection H as <- <-. rewrite world_eta. split; reflexivity.
Qed.

Lemma search_students_run (e : Engine) (now : Z) (w : World)
  (college : option string) (year : option Z) (department : option string)
  (skip limit : Z) :
  0 <= skip -> 1 <= limit <= 100 ->
  request (search_students college year department skip limit) e now w
  = (Ok (load_page e (store w)
           (map fst (window skip limit
                       (e _ (search_rows college year department (store w)))))), w).
Proof.
  intros Hs Hl. unfold request, search_students, bind, validate; simpl.
  assert (H0 : (0 <=? skip) = true) by (apply Z.leb_le; lia).
  assert (H1 : ((1 <=? limit) && (limit <=? 100)) = true).
  { apply andb_true_intro. split; apply Z.leb_le; lia. }
  rewrite H0; simpl. rewrite H1; simpl. now rewrite world_eta.
Qed.

(** The rows behind a page of a search. *)
Lemma search_page_rows (e : Engine) (d : Database)
  (rows : list (Student.t * AcademicDetails.t)) (skip limit : Z) (r : StudentResponse.t) :
  Engine_ok e ->
  In r (load_page e d (map fst (window skip limit (e _ rows)))) ->
  exists s a, In (s, a) rows /\ r = populate e d s.
Proof.
  intros He H. unfold load_page in H. apply in_map_iff in H.
  destruct H as [s [<- Hs]]. apply unique_from_incl in Hs.
  apply in_map_iff in Hs. destruct Hs as [[s' a] [Heq Hin]]. simpl in Heq. subst s'.
  apply window_incl in Hin. apply (proj1 (engine_in e He _ _ _)) in Hin.
  exists s, a. split; [exact Hin | reflexivity].
Qed.

(** C9: a filter value that Python takes for false is no filter:
    [search_students] with year 0 is [search_students] without a year, and
    with an empty college or department it is [search_students] without
    that filter. *)
Theorem search_students_falsy_filters (college : option string) (year : option Z)
  (department : option string) (skip limit : Z) :
  search_students college year department skip limit
  = search_students (truthy_text college) (truthy_year year) (truthy_text department)
                    skip limit
  /\ search_students college (Some 0) department skip limit
     = search_students college None department skip limit
  /\ search_students (Some "") year department skip limit
     = search_students None year department skip limit
  /\ search_students college year (Some "") skip limit
     = search_students college year None skip limit.
Proof.
  split; [|repeat split; reflexivity].
  unfold truthy_text, truthy_year.
  destruct college as [c|]; [destruct (c =? "")%string eqn:Hc|];
    (destruct year as [y|]; [destruct (y =? 0) eqn:Hy|]);
    (destruct department as [dep|]; [destruct (dep =? "")%string eqn:Hd|]);
    unfold search_students; rewrite ?Hc, ?Hy, ?Hd; reflexivity.
Qed.

(** C10: no page of [search_students], with or without filters, holds a
    student that has no academic row: the query joins [academic_details]
    before any filter is looked at. *)
Theorem search_students_needs_academic_row (e : Engine) (now : Z) (w w' : World)
  (college : option string) (year : option Z) (department : option string)
  (skip limit pk : Z) (page : list StudentResponse.t) :
  Engine_ok e ->
  request (search_students college year department skip limit) e now w = (Ok page, w') ->
  without_academics (store w) pk ->
  ~ In pk (response_ids page).
Proof.
  intros He Hrun Hnone Hin.
  apply search_students_inv in Hrun. destruct Hrun as [_ ->].
  unfold response_ids in Hin. apply in_map_iff in Hin. destruct Hin as [r [Hid Hr]].
  apply (search_page_rows e _ _ _ _ _ He) in Hr. destruct Hr as [s [a [Hrow ->]]].
  apply search_rows_incl, join_academic_in in Hrow. destruct Hrow as [_ [Ha Hsid]].
  simpl in Hid. apply (Hnone a Ha). congruence.
Qed.

Lemma search_students_needs_academic_row_witness :
  student_exists 1 (store bare_student) = true
  /\ request (search_students None None None 0 10) seq_scan 2000 bare_student
     = (Ok [], bare_student)
  /\ ~ In 1 (response_ids []).
Proof.
  split; [reflexivity|]. split; [reflexivity|].
  apply (search_students_needs_academic_row seq_scan 2000 bare_student bare_student
           None None None 0 10 1 []).
  - intros A l. apply Permutation_refl.
  - reflexivity.
  - intros a Ha. destruct Ha.
Defined.





(** ** The unit of work of an update *)

Lemma for_each_register {A} (f : A -> Dml) (xs : list A) (env : Env) (st : State) :
  for_each xs (fun x => register (f x)) env st
  = (Ok tt, mkState (db st) (pending st ++ map f xs) (disk st)).
Proof.
  revert st. induction xs as [|x xs IH]; intros st; simpl.
  - unfold ret. rewrite app_nil_r. now destruct st.
  - unfold bind, register at 1. rewrite IH. simpl.
    now rewrite <- app_assoc.
Qed.

Lemma flush_app (a b : list Dml) (d : Database) :
  flush (a ++ b) d
  = match flush a d with
    | Ok d' => flush b d'
    | Raise exc => Raise exc
    end.
Proof.
  revert d. induction a as [|stmt a IH]; intros d; simpl; [reflexivity|].
  destruct (exec_dml stmt d); [apply IH | reflexivity].
Qed.

Lemma bind_run {A B} (m : M A) (k : A -> M B) (env : Env) (st : State) :
  bind m k env st
  = match m env st with
    | (Ok a, st') => k a env st'
    | (Raise exc, st') => (Raise exc, st')
    end.
Proof. reflexivity. Qed.

Lemma update_student_run (e : Engine) (now : Z) (w : World) (student_id : Z)
  (u : StudentUpdate.t) :
  request (update_student student_id u) e now w
  = match hd_error (e _ (filter (fun s => Student.id s =? student_id)
                                (students (store w)))) with
    | None => (Raise (NotFound "Student not found"), w)
    | Some student =>
        match flush (update_statements e (store w) student_id u student) (store w) with
        | Raise exc => (Raise exc, w)
        | Ok d =>
            (match hd_error (e _ (filter (fun s => Student.id s =? Student.id student)
                                         (students d))) with
             | Some s => Ok (populate e d s)
             | None => Raise InvalidRequestError
             end, mkWorld d (uploads w))
        end
    end.
Proof.
  unfold request, update_student.
  rewrite bind_run. unfold query_first at 1. cbv beta iota. cbn [db engine].
  destruct (hd_error (e _ (filter (fun s => Student.id s =? student_id)
                                  (students (store w))))) as [student|].
  2:{ unfold raise. cbn [db disk]. now rewrite world_eta. }
  rewrite bind_run. unfold setattr_student. rewrite for_each_register.
  cbn [db pending disk app]. cbv iota.
  rewrite bind_run.
  assert (Hmid :
    (match academic_details_attr u with
     | Some details =>
         academic <- query_first academic_details
                       (fun a => AcademicDetails.student_id a =? student_id) ;;
         match academic with
         | Some academic =>
             for_each (academic_dict details) (fun item => setattr_academic academic item)
         | None => ret tt
         end
     | None => ret tt
     end) (mkEnv e now)
          (mkState (store w) (map (Set_student (Student.id student)) (dict_exclude_unset u))
                   (uploads w))
    = (Ok tt, mkState (store w) (update_statements e (store w) student_id u student)
                      (uploads w))).
  { unfold update_statements, academic_details_of.
    destruct (academic_details_attr u) as [details|].
    - rewrite bind_run. unfold query_first. cbv beta iota. cbn [db engine].
      destruct (hd_error _) as [academic|].
      + unfold setattr_academic. rewrite for_each_register. reflexivity.
      + unfold ret. now rewrite app_nil_r.
    - unfold ret. now rewrite app_nil_r. }
  rewrite Hmid. cbv iota.
  rewrite bind_run. unfold db_commit. cbn [db pending disk].
  destruct (flush _ _) as [d|exc]; [|cbn [db disk]; now rewrite world_eta].
  rewrite bind_run. unfold db_refresh_student. rewrite bind_run.
  unfold query_first. cbv beta iota. cbn [db engine disk].
  destruct (hd_error _) as [s|]; reflexivity.
Qed.

(** ** What the statements of an update do *)

Lemma row_update_refl (pk : Z) (cols : list StudentCol) (s : Student.t) :
  row_update pk cols s s.
Proof. unfold row_update. tauto. Qed.

Lemma row_update_trans (pk : Z) (cols : list StudentCol) (a b c : Student.t) :
  row_update pk cols a b -> row_update pk cols b c -> row_update pk cols a c.
Proof.
  unfold row_update.
  intros [Hi [Ht [Hn [He [Hp [Hg Ho]]]]]] [Hi' [Ht' [Hn' [He' [Hp' [Hg' Ho']]]]]].
  repeat split; try congruence.
  - intros H. rewrite Hn', Hn; auto.
  - intros H. rewrite He', He; auto.
  - intros H. rewrite Hp', Hp; auto.
  - intros H. rewrite Hg', Hg; auto.
  - intros H. rewrite Ho', Ho; auto. rewrite Ho; auto.
Qed.

Lemma Forall2_refl_on {A} (R : A -> A -> Prop) (l : list A) :
  (forall x, R x x) -> Forall2 R l l.
Proof.
  intros H. induction l; constructor; auto.
Qed.

Lemma Forall2_trans_on {A} (R : A -> A -> Prop) (l1 l2 l3 : list A) :
  (forall x y z, R x y -> R y z -> R x z) ->
  Forall2 R l1 l2 -> Forall2 R l2 l3 -> Forall2 R l1 l3.
Proof.
  intros Ht H12. revert l3. induction H12 as [|x y l1 l2 Hxy H12 IH]; intros l3 H23.
  - inversion H23. constructor.
  - inversion H23 as [|y' z l2' l3' Hyz H23']; subst. constructor; eauto.
Qed.

Lemma Forall2_map_right {A} (R : A -> A -> Prop) (f : A -> A) (l : list A) :
  (forall x, R x (f x)) -> Forall2 R l (map f l).
Proof.
  intros H. induction l; simpl; constructor; auto.
Qed.

Lemma Forall2_weaken {A} (R R' : A -> A -> Prop) (l l' : list A) :
  (forall x y, R x y -> R' x y) -> Forall2 R l l' -> Forall2 R' l l'.
Proof.
  intros H HF. induction HF; constructor; auto.
Qed.

Lemma write_student_col_update (pk : Z) (cols : list StudentCol) (col : StudentCol)
  (v : string) (s : Student.t) :
  In col cols ->
  row_update pk cols s (if Student.id s =? pk then write_student_col col v s else s).
Proof.
  intros Hin. destruct (Z.eqb_spec (Student.id s) pk) as [Heq | Hne];
    [|apply row_update_refl].
  unfold row_update. destruct col; simpl; repeat split; try reflexivity; try tauto.
Qed.

(** Assignments to a student touch nothing but the assigned columns of
    that student. *)
Lemma flush_student_items (pk : Z) (cols : list StudentCol) (items : list StudentItem)
  (d d' : Database) :
  (forall item, In item items -> In (fst item) cols) ->
  flush (map (Set_student pk) items) d = Ok d' ->
  Forall2 (row_update pk cols) (students d) (students d')
  /\ academic_details d' = academic_details d
  /\ documents d' = documents d.
Proof.
  revert d. induction items as [|[col value] items IH]; intros d Hcols Hflush; simpl in Hflush.
  - injection Hflush as <-. split; [|split; reflexivity].
    apply Forall2_refl_on. apply row_update_refl.
  - unfold update_student_row in Hflush.
    destruct value as [v|]; [|discriminate].
    destruct (negb (varchar (student_col_width col) v)); [discriminate|].
    destruct (is_email col && _); [discriminate|].
    apply IH in Hflush; [|intros item Hitem; apply Hcols; now right].
    destruct Hflush as [Hs [Ha Hd]]. simpl in *.
    split; [|split; assumption].
    eapply Forall2_trans_on; [apply row_update_trans| |exact Hs].
    apply Forall2_map_right. intros s.
    apply write_student_col_update. apply (Hcols (col, Some v)). now left.
Qed.

Lemma replace_academic_steps (pk : Z) (details : AcademicDetailsBase.t)
  (a : AcademicDetails.t) :
  let set item (a : AcademicDetails.t) :=
    if AcademicDetails.id a =? pk then write_academic_item item a else a in
  set (Item_backlogs (AcademicDetailsBase.backlogs details))
    (set (Item_cgpa (AcademicDetailsBase.cgpa details))
       (set (Item_graduation_year (AcademicDetailsBase.graduation_year details))
          (set (Item_department (AcademicDetailsBase.department details))
             (set (Item_college_name (AcademicDetailsBase.college_name details)) a))))
  = if AcademicDetails.id a =? pk then replace_academic details a else a.
Proof.
  simpl. destruct (AcademicDetails.id a =? pk) eqn:Hid; simpl; rewrite ?Hid; simpl;
    rewrite ?Hid; simpl; rewrite ?Hid; simpl; rewrite ?Hid; reflexivity.
Qed.

(** The five assignments of an academic sub-object replace the five values
    of the row and leave its keys and every other row alone. *)
Lemma flush_academic_items (pk : Z) (details : AcademicDetailsBase.t) (d d' : Database) :
  flush (map (Set_academic pk) (academic_dict details)) d = Ok d' ->
  students d' = students d
  /\ documents d' = documents d
  /\ academic_details d'
     = map (fun a => if AcademicDetails.id a =? pk then replace_academic details a else a)
           (academic_details d).
Proof.
  unfold academic_dict. simpl. unfold update_academic_row. simpl.
  destruct (varchar 200 (AcademicDetailsBase.college_name details)); [|discriminate].
  destruct (varchar 100 (AcademicDetailsBase.department details)); [|discriminate].
  destruct (int4 (AcademicDetailsBase.graduation_year details)); [|discriminate].
  destruct (int4 (AcademicDetailsBase.backlogs details)); [|discriminate].
  intros H. injection H as <-. simpl. split; [reflexivity|]. split; [reflexivity|].
  rewrite !map_map. apply map_ext. intros a.
  apply (replace_academic_steps pk details a).
Qed.

Lemma dict_exclude_unset_cols (u : StudentUpdate.t) (item : StudentItem) :
  In item (dict_exclude_unset u) ->
  In (fst item) (map fst (dict_exclude_unset u)).
Proof. apply in_map. Qed.

Lemma dict_exclude_unset_omitted (u : StudentUpdate.t) :
  (StudentUpdate.name u = None -> ~ In Col_name (map fst (dict_exclude_unset u)))
  /\ (StudentUpdate.email u = None -> ~ In Col_email (map fst (dict_exclude_unset u)))
  /\ (StudentUpdate.phone u = None -> ~ In Col_phone (map fst (dict_exclude_unset u)))
  /\ (StudentUpdate.gender u = None -> ~ In Col_gender (map fst (dict_exclude_unset u))).
Proof.
  unfold dict_exclude_unset.
  destruct (StudentUpdate.name u), (StudentUpdate.email u), (StudentUpdate.phone u),
    (StudentUpdate.gender u); simpl; repeat split; intros H; try discriminate;
    intuition discriminate.
Qed.

Lemma flush_update_statements (e : Engine) (d d' : Database) (student_id : Z)
  (u : StudentUpdate.t) (student : Student.t) :
  flush (update_statements e d student_id u student) d = Ok d' ->
  Forall2 (row_update (Student.id student) (map fst (dict_exclude_unset u)))
          (students d) (students d')
  /\ documents d' = documents d
  /\ academic_details d'
     = match academic_details_attr u with
       | Some details =>
           match hd_error (academic_details_of e d student_id) with
           | Some first =>
               map (fun a => if AcademicDetails.id a =? AcademicDetails.id first
                             then replace_academic details a else a)
                   (academic_details d)
           | None => academic_details d
           end
       | None => academic_details d
       end.
Proof.
  unfold update_statements. rewrite flush_app.
  destruct (flush (map (Set_student (Student.id student)) (dict_exclude_unset u)) d)
    as [d1|exc] eqn:H1; [|discriminate].
  apply (flush_student_items _ (map fst (dict_exclude_unset u))) in H1;
    [|apply dict_exclude_unset_cols].
  destruct H1 as [Hs [Ha Hd]].
  destruct (academic_details_attr u) as [details|].
  - unfold academic_details_of.
    destruct (hd_error _) as [first|].
    + intros H2. apply flush_academic_items in H2. destruct H2 as [Hs2 [Hd2 Ha2]].
      rewrite Hs2, Hd2, Ha2, Ha. auto.
    + simpl. intros H2. injection H2 as <-. auto.
  - simpl. intros H2. injection H2 as <-. auto.
Qed.

Lemma filter_nothing {A} (p : A -> bool) (l : list A) :
  (forall x, In x l -> p x = false) -> filter p l = [].
Proof.
  induction l as [|x l IH]; intros H; simpl; [reflexivity|].
  rewrite (H x) by now left. apply IH. intros y Hy. apply H. now right.
Qed.

(** ** Partial update *)

(** C5: whatever [update_student] answers, every student row keeps its key
    and creation time and each of name, email, phone and gender that the
    request did not send; the rows of other students are untouched; when the
    request has no academic sub-object the academic rows are untouched; the
    documents are untouched.  A column that was omitted is never written. *)
Theorem update_student_frame (e : Engine) (now : Z) (w w' : World) (student_id : Z)
  (u : StudentUpdate.t) (r : Result StudentResponse.t) :
  Engine_ok e ->
  request (update_student student_id u) e now w = (r, w') ->
  Forall2 (fun old new => student_frame u old new
                          /\ (Student.id old <> student_id -> new = old))
          (students (store w)) (students (store w'))
  /\ (academic_details_attr u = None ->
      academic_details (store w') = academic_details (store w))
  /\ documents (store w') = documents (store w).
Proof.
  intros He Hrun. rewrite update_student_run in Hrun.
  assert (Hsame : Forall2 (fun old new => student_frame u old new
                                          /\ (Student.id old <> student_id -> new = old))
                          (students (store w)) (students (store w))).
  { apply Forall2_refl_on. intros s. unfold student_frame. tauto. }
  destruct (hd_error _) as [student|] eqn:Hfind.
  - apply (engine_first_in e He) in Hfind. apply filter_In in Hfind.
    destruct Hfind as [_ Hid]. apply Z.eqb_eq in Hid.
    destruct (flush _ _) as [d|exc] eqn:Hflush.
    + injection Hrun as _ <-. simpl.
      apply flush_update_statements in Hflush. destruct Hflush as [Hs [Hd Ha]].
      split; [|split].
      * eapply Forall2_weaken; [|exact Hs].
        intros old new [Hi [Ht [Hn [Hem [Hp [Hg Ho]]]]]].
        destruct (dict_exclude_unset_omitted u) as [On [Oe [Op Og]]].
        rewrite Hid in Ho. unfold student_frame. repeat split; auto.
      * intros Hnone. rewrite Ha, Hnone. reflexivity.
      * exact Hd.
    + injection Hrun as _ <-. auto.
  - injection Hrun as _ <-. auto.
Qed.

Lemma update_student_frame_witness :
  let u := StudentUpdate.mk (Some (Some "New Name")) None None None None in
  let w' := snd (request (update_student 1 u) seq_scan 2000 two_students) in
  Forall2 (fun old new => student_frame u old new /\ (Student.id old <> 1 -> new = old))
          (students (store two_students)) (students (store w'))
  /\ (academic_details_attr u = None ->
      academic_details (store w') = academic_details (store two_students))
  /\ documents (store w') = documents (store two_students).
Proof.
  intros u w'.
  apply (update_student_frame seq_scan 2000 two_students w' 1 u
           (fst (request (update_student 1 u) seq_scan 2000 two_students))).
  - intros A l. apply Permutation_refl.
  - reflexivity.
Defined.



(** ** Referential integrity *)

Lemma student_exists_in (pk : Z) (d : Database) :
  student_exists pk d = true <-> exists s, In s (students d) /\ Student.id s = pk.
Proof.
  unfold student_exists. rewrite existsb_exists.
  split; intros [s [Hs Hid]]; exists s; (split; [exact Hs|]); now apply Z.eqb_eq.
Qed.

Lemma no_orphans_same_rows (d d' : Database) :
  students d' = students d ->
  academic_details d' = academic_details d ->
  documents d' = documents d ->
  no_orphans d -> no_orphans d'.
Proof.
  unfold no_orphans, student_exists. intros -> -> ->. tauto.
Qed.

(** When every student key stays, whoever had a student still has one. *)
Lemma no_orphans_same_keys (d d' : Database) :
  (forall pk, student_exists pk d = true -> student_exists pk d' = true) ->
  map AcademicDetails.student_id (academic_details d')
  = map AcademicDetails.student_id (academic_details d) ->
  map Documents.student_id (documents d') = map Documents.student_id (documents d) ->
  no_orphans d -> no_orphans d'.
Proof.
  intros Hkeys Ha Hx [Hacad Hdocs]. split.
  - intros a Hin. apply Hkeys.
    apply (in_map AcademicDetails.student_id) in Hin. rewrite Ha in Hin.
    apply in_map_iff in Hin. destruct Hin as [a0 [<- Hin0]]. now apply Hacad.
  - intros x Hin. apply Hkeys.
    apply (in_map Documents.student_id) in Hin. rewrite Hx in Hin.
    apply in_map_iff in Hin. destruct Hin as [x0 [<- Hin0]]. now apply Hdocs.
Qed.

Lemma exec_dml_no_orphans (stmt : Dml) (d d' : Database) :
  exec_dml stmt d = Ok d' -> no_orphans d -> no_orphans d'.
Proof.
  destruct stmt as [r | r | r | pk [col value] | pk item | pk]; simpl.
  - unfold insert_student.
    destruct (negb _); [discriminate|]. destruct (student_exists _ _); [discriminate|].
    destruct (existsb _ _); [discriminate|]. intros H. injection H as <-.
    apply no_orphans_same_keys; try reflexivity.
    intros pk. rewrite !student_exists_in. simpl.
    intros [s [Hs Hid]]. exists s. split; [apply in_or_app; now left | exact Hid].
  - unfold insert_academic.
    destruct (negb _); [discriminate|]. destruct (negb _); [discriminate|].
    destruct (existsb _ _); [discriminate|].
    destruct (student_exists (AcademicDetails.student_id r) d) eqn:Hfk; [|discriminate].
    simpl. intros H. injection H as <-. intros [Hacad Hdocs]. split.
    + intros a Hin. simpl in Hin. apply in_app_or in Hin.
      destruct Hin as [Hin | [<- | []]]; [now apply Hacad | exact Hfk].
    + exact Hdocs.
  - unfold insert_document.
    destruct (negb _); [discriminate|]. destruct (existsb _ _); [discriminate|].
    destruct (student_exists (Documents.student_id r) d) eqn:Hfk; [|discriminate].
    simpl. intros H. injection H as <-. intros [Hacad Hdocs]. split.
    + exact Hacad.
    + intros x Hin. simpl in Hin. apply in_app_or in Hin.
      destruct Hin as [Hin | [<- | []]]; [now apply Hdocs | exact Hfk].
  - unfold update_student_row. destruct value as [v|]; [|discriminate].
    destruct (negb _); [discriminate|]. destruct (is_email col && _); [discriminate|].
    intros H. injection H as <-.
    apply no_orphans_same_keys; try reflexivity.
    intros pk'. rewrite !student_exists_in. simpl.
    intros [s [Hs Hid]].
    exists (if Student.id s =? pk then write_student_col col v s else s). split.
    + apply (in_map (fun s => if Student.id s =? pk then write_student_col col v s else s)).
      exact Hs.
    + destruct (Student.id s =? pk); [|exact Hid]. now destruct col.
  - unfold update_academic_row. destruct (academic_item_ok item) as [ok|exc]; [|discriminate].
    intros H. injection H as <-.
    apply no_orphans_same_keys; try reflexivity; [auto|].
    simpl. rewrite map_map. apply map_ext. intros row.
    destruct (AcademicDetails.id row =? pk); [|reflexivity]. now destruct item.
  - intros H. injection H as <-. intros [Hacad Hdocs].
    assert (Hkeep : forall k, k <> pk -> student_exists k d = true ->
                              student_exists k (delete_student_rows pk d) = true).
    { intros k Hk. rewrite !student_exists_in. simpl.
      intros [s [Hs Hid]]. exists s. split; [|exact Hid].
      apply filter_In. split; [exact Hs|]. apply negb_true_iff, Z.eqb_neq. congruence. }
    split.
    + intros a Hin. simpl in Hin. apply filter_In in Hin. destruct Hin as [Hin Hne].
      apply negb_true_iff, Z.eqb_neq in Hne. apply Hkeep; [exact Hne | now apply Hacad].
    + intros x Hin. simpl in Hin. apply filter_In in Hin. destruct Hin as [Hin Hne].
      apply negb_true_iff, Z.eqb_neq in Hne. apply Hkeep; [exact Hne | now apply Hdocs].
Qed.

Lemma flush_no_orphans (stmts : list Dml) (d d' : Database) :
  flush stmts d = Ok d' -> no_orphans d -> no_orphans d'.
Proof.
  revert d. induction stmts as [|stmt stmts IH]; intros d; simpl.
  - intros H. now injection H as <-.
  - destruct (exec_dml stmt d) as [d1|exc] eqn:H1; [|discriminate].
    intros H Hinv. eapply IH; [exact H|]. eapply exec_dml_no_orphans; eauto.
Qed.

Section Keeps.

Context {A B : Type}.

Lemma keeps_ret (a : A) : keeps_no_orphans (ret a).
Proof. intros env st r st' H. injection H as _ <-. auto. Qed.

Lemma keeps_raise (exc : Exc) : keeps_no_orphans (@raise A exc).
Proof. intros env st r st' H. injection H as _ <-. auto. Qed.

Lemma keeps_bind (m : M A) (k : A -> M B) :
  keeps_no_orphans m -> (forall a, keeps_no_orphans (k a)) -> keeps_no_orphans (bind m k).
Proof.
  intros Hm Hk env st r st' H Hinv. rewrite bind_run in H.
  destruct (m env st) as [[a|exc] st1] eqn:Hrun.
  - eapply Hk; [exact H|]. eapply Hm; eauto.
  - injection H as _ <-. eapply Hm; eauto.
Qed.

Lemma keeps_query_first (table : Database -> list A) (where_ : A -> bool) :
  keeps_no_orphans (query_first table where_).
Proof. intros env st r st' H. injection H as _ <-. auto. Qed.

Lemma keeps_query_all (table : Database -> list A) (where_ : A -> bool) :
  keeps_no_orphans (query_all table where_).
Proof. intros env st r st' H. injection H as _ <-. auto. Qed.

Lemma keeps_for_each (xs : list A) (body : A -> M unit) :
  (forall x, keeps_no_orphans (body x)) -> keeps_no_orphans (for_each xs body).
Proof.
  intros Hbody. induction xs as [|x xs IH]; simpl.
  - intros env st r st' H. injection H as _ <-. auto.
  - intros env st r st' H Hinv. unfold bind in H.
    destruct (body x env st) as [[u|exc] st1] eqn:Hrun.
    + eapply IH; [exact H|]. eapply Hbody; eauto.
    + injection H as _ <-. eapply Hbody; eauto.
Qed.

End Keeps.

Lemma keeps_register (stmt : Dml) : keeps_no_orphans (register stmt).
Proof. intros env st r st' H. injection H as _ <-. auto. Qed.

Lemma keeps_db_commit : keeps_no_orphans db_commit.
Proof.
  intros env st r st' H Hinv. unfold db_commit in H.
  destruct (flush (pending st) (db st)) as [d|exc] eqn:Hflush; injection H as _ <-; simpl.
  - eapply flush_no_orphans; eauto.
  - exact Hinv.
Qed.

Lemma keeps_db_add_student (name email phone gender : string) :
  keeps_no_orphans (db_add_student name email phone gender).
Proof.
  intros env st r st' H. injection H as _ <-. simpl.
  now apply no_orphans_same_rows.
Qed.

Lemma keeps_db_add_academic (student_id : Z) (college_name department : string)
  (graduation_year : Z) (cgpa : float) (backlogs : Z) :
  keeps_no_orphans
    (db_add_academic student_id college_name department graduation_year cgpa backlogs).
Proof.
  intros env st r st' H. injection H as _ <-. simpl.
  now apply no_orphans_same_rows.
Qed.

Lemma keeps_db_add_document (student_id : Z) (doc_type file_path : string) :
  keeps_no_orphans (db_add_document student_id doc_type file_path).
Proof.
  intros env st r st' H. injection H as _ <-. simpl.
  now apply no_orphans_same_rows.
Qed.

Lemma keeps_validate (ok : bool) : keeps_no_orphans (validate ok).
Proof. destruct ok; [apply keeps_ret | apply keeps_raise]. Qed.

Lemma keeps_respond (s : Student.t) : keeps_no_orphans (respond s).
Proof. intros env st r st' H. injection H as _ <-. auto. Qed.

Lemma keeps_os_path_exists (path : string) : keeps_no_orphans (os_path_exists path).
Proof. intros env st r st' H. injection H as _ <-. auto. Qed.

Lemma keeps_os_remove (path : string) : keeps_no_orphans (os_remove path).
Proof. intros env st r st' H. injection H as _ <-. auto. Qed.

Lemma keeps_write_file (path : string) (content : list Byte.byte) :
  keeps_no_orphans (write_file path content).
Proof. intros env st r st' H. injection H as _ <-. auto. Qed.

Lemma keeps_db_refresh_student (pk : Z) : keeps_no_orphans (db_refresh_student pk).
Proof.
  apply keeps_bind; [apply keeps_query_first|].
  intros [s|]; [apply keeps_ret | apply keeps_raise].
Qed.

Lemma keeps_db_refresh_academic (pk : Z) : keeps_no_orphans (db_refresh_academic pk).
Proof.
  apply keeps_bind; [apply keeps_query_first|].
  intros [a|]; [apply keeps_ret | apply keeps_raise].
Qed.

Create HintDb keeps.

#[local] Hint Resolve keeps_ret keeps_raise keeps_query_first keeps_query_all
  keeps_register keeps_db_commit keeps_db_add_student keeps_db_add_academic
  keeps_db_add_document keeps_validate keeps_respond keeps_os_path_exists
  keeps_os_remove keeps_write_file keeps_db_refresh_student
  keeps_db_refresh_academic : keeps.

(** One step through the structure of a handler. *)
Ltac keeps_step :=
  match goal with
  | |- keeps_no_orphans (bind _ _) => apply keeps_bind; [|intros ?]
  | |- keeps_no_orphans (for_each _ _) => apply keeps_for_each; intros ?
  | |- keeps_no_orphans (match ?x with _ => _ end) => destruct x
  | |- keeps_no_orphans (if ?x then _ else _) => destruct x
  | |- keeps_no_orphans (fun env st => (_, st)) =>
      let H := fresh in intros ? ? ? ? H; injection H as _ <-; auto
  | |- keeps_no_orphans _ => solve [auto with keeps]
  end.

Lemma keeps_create_student (student : StudentCreate.t) :
  keeps_no_orphans (create_student student).
Proof. unfold create_student. repeat keeps_step. Qed.

Lemma keeps_get_students (skip limit : Z) : keeps_no_orphans (get_students skip limit).
Proof. unfold get_students. repeat keeps_step. Qed.

Lemma keeps_search_students (college : option string) (year : option Z)
  (department : option string) (skip limit : Z) :
  keeps_no_orphans (search_students college year department skip limit).
Proof. unfold search_students. repeat keeps_step. Qed.

Lemma keeps_get_student (student_id : Z) : keeps_no_orphans (get_student student_id).
Proof. unfold get_student. repeat keeps_step. Qed.

Lemma keeps_update_student (student_id : Z) (u : StudentUpdate.t) :
  keeps_no_orphans (update_student student_id u).
Proof.
  unfold update_student, setattr_student, setattr_academic. repeat keeps_step.
Qed.

Lemma keeps_delete_student (student_id : Z) : keeps_no_orphans (delete_student student_id).
Proof. unfold delete_student, db_delete. repeat keeps_step. Qed.

Lemma keeps_upload_documents (student_id : Z) (resume : UploadFile.t)
  (id_proof : option UploadFile.t) :
  keeps_no_orphans (upload_documents student_id resume id_proof).
Proof. unfold upload_documents. repeat keeps_step. Qed.

Lemma keeps_download_document (student_id doc_id : Z) :
  keeps_no_orphans (download_document student_id doc_id).
Proof. unfold download_document. repeat keeps_step. Qed.

Lemma request_no_orphans {A} (handler : M A) (e : Engine) (now : Z) (w : World) :
  keeps_no_orphans handler ->
  no_orphans (store w) -> no_orphans (store (snd (request handler e now w))).
Proof.
  intros Hk Hinv. unfold request.
  destruct (handler _ _) as [r st] eqn:Hrun. simpl.
  eapply Hk; [exact Hrun | exact Hinv].
Qed.

(** ** Deletion *)

Lemma for_each_remove_files (docs : list Documents.t) (env : Env) (st : State) :
  exists files,
    for_each docs remove_file_of env st = (Ok tt, mkState (db st) (pending st) files).
Proof.
  revert st. induction docs as [|doc docs IH]; intros st; simpl.
  - exists (disk st). now destruct st.
  - unfold bind at 1, remove_file_of at 1, bind at 1, os_path_exists, os_remove, ret.
    destruct (existsb _ (disk st)).
    + destruct (IH (mkState (db st) (pending st)
                            (filter (fun f => negb (fst f =? Documents.file_path doc)%string)
                                    (disk st)))) as [files Hfiles].
      exists files. exact Hfiles.
    + destruct (IH st) as [files Hfiles]. exists files. exact Hfiles.
Qed.

Lemma delete_student_inv (e : Engine) (now : Z) (w w' : World) (student_id : Z)
  (message : string) :
  request (delete_student student_id) e now w = (Ok message, w') ->
  exists student,
    hd_error (e _ (filter (fun s => Student.id s =? student_id) (students (store w))))
    = Some student
    /\ store w' = delete_student_rows (Student.id student) (store w).
Proof.
  unfold request, delete_student.
  rewrite bind_run. unfold query_first at 1. cbv beta iota. cbn [db engine].
  destruct (hd_error _) as [student|]; [|discriminate].
  intros H. exists student. split; [reflexivity|].
  rewrite bind_run in H. unfold query_all in H. cbv beta iota in H. cbn [db engine] in H.
  rewrite bind_run in H.
  change (fun doc : Documents.t =>
            present <- os_path_exists (Documents.file_path doc) ;;
            (if present then os_remove (Documents.file_path doc) else ret tt))
    with remove_file_of in H.
  destruct (for_each_remove_files
              (e _ (filter (fun x => Documents.student_id x =? Student.id student)
                           (documents (store w))))
              (mkEnv e now) (mkState (store w) [] (uploads w))) as [files Hfiles].
  rewrite Hfiles in H. cbv iota in H. cbn [db pending disk] in H.
  rewrite bind_run in H. unfold db_delete, register in H. cbn [db pending disk app] in H.
  rewrite bind_run in H. unfold db_commit in H. cbn [db pending disk flush exec_dml] in H.
  unfold ret in H. cbn [db disk] in H.
  injection H as _ <-. reflexivity.
Qed.

Lemma get_student_not_found (e : Engine) (now : Z) (w : World) (student_id : Z) :
  Engine_ok e ->
  student_exists student_id (store w) = false ->
  request (get_student student_id) e now w = (Raise (NotFound "Student not found"), w).
Proof.
  intros He Hnone. unfold request, get_student.
  rewrite bind_run. unfold query_first. cbv beta iota. cbn [db engine].
  rewrite filter_nothing.
  - rewrite (engine_nil e He). cbn [hd_error]. unfold raise. cbn [db disk].
    now rewrite world_eta.
  - intros s Hs. unfold student_exists in Hnone.
    destruct (Student.id s =? student_id) eqn:Hid; [|reflexivity].
    assert (Hex : existsb (fun s => Student.id s =? student_id) (students (store w)) = true).
    { apply existsb_exists. now exists s. }
    congruence.
Qed.

Lemma download_document_not_found (e : Engine) (now : Z) (w : World)
  (student_id doc_id : Z) :
  Engine_ok e ->
  (forall x, In x (documents (store w)) -> Documents.student_id x <> student_id) ->
  request (download_document student_id doc_id) e now w
  = (Raise (NotFound "Document not found"), w).
Proof.
  intros He Hnone. unfold request, download_document.
  rewrite bind_run. unfold query_first. cbv beta iota. cbn [db engine].
  rewrite filter_nothing.
  - rewrite (engine_nil e He). cbn [hd_error]. unfold raise. cbn [db disk].
    now rewrite world_eta.
  - intros x Hx. apply andb_false_iff. right. apply Z.eqb_neq. now apply Hnone.
Qed.

(** C6: the store never holds an orphan - it holds none when it is empty,
    and no operation, whatever it answers, leaves one behind.  After a
    [delete_student] that succeeded, no academic row and no document of
    that student remains, [get_student] for it answers "Student not found",
    and the download of any document under that student, its former ones
    included, answers "Document not found". *)
Theorem delete_student_cascades :
  no_orphans empty_database
  /\ (forall op e now w,
         no_orphans (store w) -> no_orphans (store (perform op e now w)))
  /\ (forall e now w w' student_id message,
         Engine_ok e ->
         request (delete_student student_id) e now w = (Ok message, w') ->
         (forall a, In a (academic_details (store w')) ->
                    AcademicDetails.student_id a <> student_id)
         /\ (forall x, In x (documents (store w')) ->
                       Documents.student_id x <> student_id)
         /\ (forall e' now',
                Engine_ok e' ->
                request (get_student student_id) e' now' w'
                = (Raise (NotFound "Student not found"), w'))
         /\ (forall e' now' doc_id,
                Engine_ok e' ->
                request (download_document student_id doc_id) e' now' w'
                = (Raise (NotFound "Document not found"), w'))).
Proof.
  split; [|split].
  - split; intros x [].
  - intros op e now w Hinv. destruct op; simpl; apply request_no_orphans; try exact Hinv.
    + apply keeps_create_student.
    + apply keeps_get_students.
    + apply keeps_search_students.
    + apply keeps_get_student.
    + apply keeps_update_student.
    + apply keeps_delete_student.
    + apply keeps_upload_documents.
    + apply keeps_download_document.
  - intros e now w w' student_id message He Hrun.
    apply delete_student_inv in Hrun. destruct Hrun as [student [Hfind Hstore]].
    apply (engine_first_in e He) in Hfind. apply filter_In in Hfind.
    destruct Hfind as [_ Hid]. apply Z.eqb_eq in Hid. rewrite Hid in Hstore.
    assert (Hacad : forall a, In a (academic_details (store w')) ->
                              AcademicDetails.student_id a <> student_id).
    { rewrite Hstore. simpl. intros a Ha. apply filter_In in Ha.
      destruct Ha as [_ Hne]. now apply negb_true_iff, Z.eqb_neq in Hne. }
    assert (Hdocs : forall x, In x (documents (store w')) ->
                              Documents.student_id x <> student_id).
    { rewrite Hstore. simpl. intros x Hx. apply filter_In in Hx.
      destruct Hx as [_ Hne]. now apply negb_true_iff, Z.eqb_neq in Hne. }
    split; [exact Hacad|]. split; [exact Hdocs|]. split.
    + intros e' now' He'. apply get_student_not_found; [exact He'|].
      rewrite Hstore. unfold student_exists. simpl.
      apply not_true_is_false. intros Hex. apply existsb_exists in Hex.
      destruct Hex as [s [Hs Hs_id]]. apply filter_In in Hs. destruct Hs as [_ Hne].
      rewrite Hs_id in Hne. discriminate.
    + intros e' now' doc_id He'. now apply download_document_not_found.
Qed.

Lemma delete_student_cascades_witness :
  let w' := snd (request (delete_student 1) seq_scan 2002 with_resume) in
  map Documents.id (documents (store with_resume)) = [1]
  /\ request (delete_student 1) seq_scan 2002 with_resume
     = (Ok "Student deleted successfully", w')
  /\ request (get_student 1) seq_scan 2003 w' = (Raise (NotFound "Student not found"), w')
  /\ request (download_document 1 1) seq_scan 2003 w'
     = (Raise (NotFound "Document not found"), w').
Proof.
  intros w'. split; [reflexivity|]. split; [reflexivity|].
  destruct (proj2 (proj2 delete_student_cascades) seq_scan 2002 with_resume w' 1
              "Student deleted successfully" (fun A l => Permutation_refl l) eq_refl)
    as [_ [_ [Hget Hdoc]]].
  split.
  - apply Hget. intros A l. apply Permutation_refl.
  - apply Hdoc. intros A l. apply Permutation_refl.
Defined.

(** ** Integrity of the store under the statements of a flush *)

Lemma NoDup_snoc {A} (l : list A) (x : A) : NoDup l -> ~ In x l -> NoDup (l ++ [x]).
Proof.
  intros Hl Hx. apply NoDup_app; [exact Hl | repeat constructor; intros [] |].
  intros y Hy [<- | []]. now apply Hx.
Qed.

(** Rows that are left after a deletion still have different keys. *)
Lemma keys_distinct_after_filter {Row Key : Type} (keep : Row -> bool) (key : Row -> Key)
  (rows : list Row) :
  NoDup (map key rows) -> NoDup (map key (filter keep rows)).
Proof.
  induction rows as [|r rows IH]; simpl; intros H; [constructor|].
  inversion H as [|k t Hk Ht]; subst.
  destruct (keep r); simpl; [|now apply IH].
  constructor; [|now apply IH].
  intros Hin. apply Hk. apply in_map_iff in Hin. destruct Hin as [z [Hz Hin]].
  apply filter_In in Hin. rewrite <- Hz. apply in_map. tauto.
Qed.

Lemma existsb_false_forall {A} (p : A -> bool) (l : list A) :
  existsb p l = false -> forall x, In x l -> p x = false.
Proof.
  intros H x Hx. destruct (p x) eqn:Hp; [|reflexivity].
  assert (existsb p l = true) by (apply existsb_exists; now exists x). congruence.
Qed.

Lemma write_student_col_id (col : StudentCol) (v : string) (s : Student.t) :
  Student.id (write_student_col col v s) = Student.id s.
Proof. now destruct col. Qed.

Lemma write_academic_item_keys (item : AcademicItem) (a : AcademicDetails.t) :
  AcademicDetails.id (write_academic_item item a) = AcademicDetails.id a
  /\ AcademicDetails.student_id (write_academic_item item a) = AcademicDetails.student_id a.
Proof. now destruct item. Qed.

Lemma map_id_update_students (pk : Z) (col : StudentCol) (v : string) (l : list Student.t) :
  map Student.id (map (fun s => if Student.id s =? pk then write_student_col col v s else s) l)
  = map Student.id l.
Proof.
  rewrite map_map. apply map_ext. intros s.
  destruct (Student.id s =? pk); [apply write_student_col_id | reflexivity].
Qed.

Lemma map_id_update_academics (pk : Z) (item : AcademicItem) (l : list AcademicDetails.t) :
  map AcademicDetails.id
      (map (fun a => if AcademicDetails.id a =? pk then write_academic_item item a else a) l)
  = map AcademicDetails.id l.
Proof.
  rewrite map_map. apply map_ext. intros a.
  destruct (AcademicDetails.id a =? pk); [apply write_academic_item_keys | reflexivity].
Qed.

(** Writing the email [v] of the student [pk], when no other student has
    it, keeps the emails different from each other. *)
Lemma emails_after_update (pk : Z) (v : string) (l : list Student.t) :
  NoDup (map Student.id l) ->
  NoDup (map Student.email l) ->
  (forall s, In s l -> Student.id s <> pk -> Student.email s <> v) ->
  NoDup (map Student.email
             (map (fun s => if Student.id s =? pk then write_student_col Col_email v s else s)
                  l)).
Proof.
  induction l as [|s l IH]; simpl; intros Hid Hmail Hother; [constructor|].
  inversion Hid as [|x t Hx Ht]; subst. inversion Hmail as [|x t Hx' Ht']; subst.
  constructor.
  - intros Hin. apply in_map_iff in Hin. destruct Hin as [t' [Heq Hin]].
    apply in_map_iff in Hin. destruct Hin as [t [<- Ht_in]].
    destruct (Z.eqb_spec (Student.id s) pk) as [Hs | Hs];
      destruct (Z.eqb_spec (Student.id t) pk) as [Hteq | Hteq]; simpl in Heq.
    + apply Hx. rewrite Hs, <- Hteq. now apply in_map.
    + apply (Hother t); auto.
    + apply (Hother s); auto.
    + apply Hx'. rewrite <- Heq. now apply in_map.
  - apply IH; auto.
Qed.

Lemma emails_kept (pk : Z) (col : StudentCol) (v : string) (l : list Student.t) :
  col <> Col_email ->
  map Student.email
      (map (fun s => if Student.id s =? pk then write_student_col col v s else s) l)
  = map Student.email l.
Proof.
  intros Hcol. rewrite map_map. apply map_ext. intros s.
  destruct (Student.id s =? pk); [|reflexivity]. destruct col; try reflexivity.
  now contradiction Hcol.
Qed.

Lemma exec_dml_unique_keys (stmt : Dml) (d d' : Database) :
  exec_dml stmt d = Ok d' -> unique_keys d -> unique_keys d'.
Proof.
  intros Hexec [Hid [Hmail [Haid Hxid]]].
  destruct stmt as [r | r | r | pk [col value] | pk item | pk]; simpl in Hexec.
  - unfold insert_student in Hexec.
    destruct (negb _); [discriminate|].
    destruct (student_exists (Student.id r) d) eqn:Hpk; [discriminate|].
    destruct (existsb _ (students d)) eqn:Hun; [discriminate|].
    injection Hexec as <-. unfold unique_keys. simpl. rewrite !map_app. simpl.
    repeat split; auto.
    + apply NoDup_snoc; [exact Hid|]. intros Hin. apply in_map_iff in Hin.
      destruct Hin as [s [Heq Hs]].
      apply (existsb_false_forall _ _ Hpk) in Hs. apply Z.eqb_neq in Hs. auto.
    + apply NoDup_snoc; [exact Hmail|]. intros Hin. apply in_map_iff in Hin.
      destruct Hin as [s [Heq Hs]].
      apply (existsb_false_forall _ _ Hun) in Hs. apply String.eqb_neq in Hs. auto.
  - unfold insert_academic in Hexec.
    destruct (negb _); [discriminate|]. destruct (negb _); [discriminate|].
    destruct (existsb _ (academic_details d)) eqn:Hpk; [discriminate|].
    destruct (negb _); [discriminate|].
    injection Hexec as <-. unfold unique_keys. simpl. rewrite !map_app. simpl.
    repeat split; auto.
    apply NoDup_snoc; [exact Haid|]. intros Hin. apply in_map_iff in Hin.
    destruct Hin as [a [Heq Ha]].
    apply (existsb_false_forall _ _ Hpk) in Ha. apply Z.eqb_neq in Ha. auto.
  - unfold insert_document in Hexec.
    destruct (negb _); [discriminate|].
    destruct (existsb _ (documents d)) eqn:Hpk; [discriminate|].
    destruct (negb _); [discriminate|].
    injection Hexec as <-. unfold unique_keys. simpl. rewrite !map_app. simpl.
    repeat split; auto.
    apply NoDup_snoc; [exact Hxid|]. intros Hin. apply in_map_iff in Hin.
    destruct Hin as [x [Heq Hx]].
    apply (existsb_false_forall _ _ Hpk) in Hx. apply Z.eqb_neq in Hx. auto.
  - unfold update_student_row in Hexec. destruct value as [v|]; [|discriminate].
    destruct (negb _); [discriminate|].
    destruct (is_email col && _) eqn:Hun; [discriminate|].
    injection Hexec as <-. unfold unique_keys. simpl.
    rewrite map_id_update_students. repeat split; auto.
    destruct col; try (rewrite emails_kept by discriminate; exact Hmail).
    simpl in Hun. apply emails_after_update; auto.
    intros s Hs Hne Heq.
    apply (existsb_false_forall _ _ Hun) in Hs.
    apply andb_false_iff in Hs. destruct Hs as [Hs | Hs].
    + apply negb_false_iff, Z.eqb_eq in Hs. auto.
    + apply String.eqb_neq in Hs. auto.
  - unfold update_academic_row in Hexec.
    destruct (academic_item_ok item) as [ok|exc]; [|discriminate].
    injection Hexec as <-. unfold unique_keys. simpl.
    rewrite map_id_update_academics. auto.
  - injection Hexec as <-. unfold unique_keys. simpl.
    repeat split; now apply keys_distinct_after_filter.
Qed.

Lemma write_student_col_fits (col : StudentCol) (v : string) (s : Student.t) :
  varchar (student_col_width col) v = true ->
  student_fits s -> student_fits (write_student_col col v s).
Proof.
  unfold student_fits. intros Hv [Hn [He [Hp Hg]]]. destruct col; simpl in *; auto.
Qed.

Lemma write_academic_item_fits (item : AcademicItem) (a : AcademicDetails.t) :
  academic_item_ok item = Ok tt ->
  academic_fits a -> academic_fits (write_academic_item item a).
Proof.
  unfold academic_fits. intros Hok [Hc [Hd [Hy Hb]]].
  destruct item as [v|v|v|v|v]; simpl in *; repeat split; auto.
  - now destruct (varchar 200 v).
  - now destruct (varchar 100 v).
  - now destruct (int4 v).
  - now destruct (int4 v).
Qed.

Lemma Forall_snoc {A} (P : A -> Prop) (l : list A) (x : A) :
  Forall P l -> P x -> Forall P (l ++ [x]).
Proof.
  intros Hl Hx. apply Forall_app. split; [exact Hl | now constructor].
Qed.

Lemma Forall_filter_of {A} (P : A -> Prop) (p : A -> bool) (l : list A) :
  Forall P l -> Forall P (filter p l).
Proof.
  intros H. apply Forall_forall. intros x Hx. apply filter_In in Hx.
  rewrite Forall_forall in H. now apply H.
Qed.

Lemma exec_dml_columns_fit (stmt : Dml) (d d' : Database) :
  exec_dml stmt d = Ok d' -> columns_fit d -> columns_fit d'.
Proof.
  intros Hexec [Hs [Ha Hx]].
  destruct stmt as [r | r | r | pk [col value] | pk item | pk]; simpl in Hexec.
  - unfold insert_student in Hexec.
    destruct (varchar 100 (Student.name r) && varchar 100 (Student.email r)
              && varchar 15 (Student.phone r) && varchar 10 (Student.gender r)) eqn:Hfit;
      [|discriminate]. simpl in Hexec.
    destruct (student_exists _ _); [discriminate|].
    destruct (existsb _ _); [discriminate|].
    injection Hexec as <-. unfold columns_fit. simpl. repeat split; auto.
    apply Forall_snoc; [exact Hs|].
    apply andb_prop in Hfit. destruct Hfit as [Hfit Hg].
    apply andb_prop in Hfit. destruct Hfit as [Hfit Hp].
    apply andb_prop in Hfit. destruct Hfit as [Hn He].
    unfold student_fits. auto.
  - unfold insert_academic in Hexec.
    destruct (varchar 200 (AcademicDetails.college_name r)
              && varchar 100 (AcademicDetails.department r)) eqn:Hfit; [|discriminate].
    destruct (int4 (AcademicDetails.graduation_year r)
              && int4 (AcademicDetails.backlogs r)) eqn:Hint; [|discriminate].
    simpl in Hexec.
    destruct (existsb _ _); [discriminate|]. destruct (negb _); [discriminate|].
    injection Hexec as <-. unfold columns_fit. simpl. repeat split; auto.
    apply Forall_snoc; [exact Ha|].
    apply andb_prop in Hfit, Hint. unfold academic_fits. tauto.
  - unfold insert_document in Hexec.
    destruct (varchar 50 (Documents.doc_type r)) eqn:Hfit; [|discriminate]. simpl in Hexec.
    destruct (existsb _ _); [discriminate|]. destruct (negb _); [discriminate|].
    injection Hexec as <-. unfold columns_fit. simpl. repeat split; auto.
    now apply Forall_snoc.
  - unfold update_student_row in Hexec. destruct value as [v|]; [|discriminate].
    destruct (varchar (student_col_width col) v) eqn:Hfit; [|discriminate].
    simpl in Hexec. destruct (is_email col && _); [discriminate|].
    injection Hexec as <-. unfold columns_fit. simpl. repeat split; auto.
    apply Forall_map. eapply Forall_impl; [|exact Hs]. intros s Hfits.
    destruct (Student.id s =? pk); [now apply write_student_col_fits | exact Hfits].
  - unfold update_academic_row in Hexec.
    destruct (academic_item_ok item) as [[]|exc] eqn:Hok; [|discriminate].
    injection Hexec as <-. unfold columns_fit. simpl. repeat split; auto.
    apply Forall_map. eapply Forall_impl; [|exact Ha]. intros a Hfits.
    destruct (AcademicDetails.id a =? pk); [now apply write_academic_item_fits | exact Hfits].
  - injection Hexec as <-. unfold columns_fit. simpl.
    repeat split; now apply Forall_filter_of.
Qed.

Lemma exec_dml_sequences (stmt : Dml) (d d' : Database) :
  exec_dml stmt d = Ok d' ->
  students_id_seq d' = students_id_seq d
  /\ academic_details_id_seq d' = academic_details_id_seq d
  /\ documents_id_seq d' = documents_id_seq d.
Proof.
  destruct stmt as [r | r | r | pk [col value] | pk item | pk]; simpl.
  - unfold insert_student. destruct (negb _); [discriminate|].
    destruct (student_exists _ _); [discriminate|]. destruct (existsb _ _); [discriminate|].
    intros H. injection H as <-. auto.
  - unfold insert_academic. destruct (negb _); [discriminate|].
    destruct (negb _); [discriminate|]. destruct (existsb _ _); [discriminate|].
    destruct (negb _); [discriminate|]. intros H. injection H as <-. auto.
  - unfold insert_document. destruct (negb _); [discriminate|].
    destruct (existsb _ _); [discriminate|]. destruct (negb _); [discriminate|].
    intros H. injection H as <-. auto.
  - unfold update_student_row. destruct value as [v|]; [|discriminate].
    destruct (negb _); [discriminate|]. destruct (is_email col && _); [discriminate|].
    intros H. injection H as <-. auto.
  - unfold update_academic_row. destruct (academic_item_ok item); [|discriminate].
    intros H. injection H as <-. auto.
  - intros H. injection H as <-. auto.
Qed.

Lemma exec_dml_sequences_ahead (stmt : Dml) (d d' : Database) :
  exec_dml stmt d = Ok d' -> insert_below d stmt ->
  sequences_ahead d -> sequences_ahead d'.
Proof.
  intros Hexec Hbelow [Hs [Ha Hx]].
  destruct stmt as [r | r | r | pk [col value] | pk item | pk]; simpl in Hexec, Hbelow.
  - unfold insert_student in Hexec. destruct (negb _); [discriminate|].
    destruct (student_exists _ _); [discriminate|]. destruct (existsb _ _); [discriminate|].
    injection Hexec as <-. unfold sequences_ahead. simpl. repeat split; auto.
    intros s Hin. apply in_app_or in Hin. destruct Hin as [Hin | [<- | []]]; auto.
  - unfold insert_academic in Hexec. destruct (negb _); [discriminate|].
    destruct (negb _); [discriminate|]. destruct (existsb _ _); [discriminate|].
    destruct (negb _); [discriminate|].
    injection Hexec as <-. unfold sequences_ahead. simpl. repeat split; auto.
    intros a Hin. apply in_app_or in Hin. destruct Hin as [Hin | [<- | []]]; auto.
  - unfold insert_document in Hexec. destruct (negb _); [discriminate|].
    destruct (existsb _ _); [discriminate|]. destruct (negb _); [discriminate|].
    injection Hexec as <-. unfold sequences_ahead. simpl. repeat split; auto.
    intros x Hin. apply in_app_or in Hin. destruct Hin as [Hin | [<- | []]]; auto.
  - unfold update_student_row in Hexec. destruct value as [v|]; [|discriminate].
    destruct (negb _); [discriminate|]. destruct (is_email col && _); [discriminate|].
    injection Hexec as <-. unfold sequences_ahead. simpl. repeat split; auto.
    intros s Hin. apply in_map_iff in Hin. destruct Hin as [s0 [<- Hin]].
    destruct (Student.id s0 =? pk); [rewrite write_student_col_id|]; auto.
  - unfold update_academic_row in Hexec.
    destruct (academic_item_ok item) as [ok|exc]; [|discriminate].
    injection Hexec as <-. unfold sequences_ahead. simpl. repeat split; auto.
    intros a Hin. apply in_map_iff in Hin. destruct Hin as [a0 [<- Hin]].
    destruct (AcademicDetails.id a0 =? pk);
      [rewrite (proj1 (write_academic_item_keys item a0))|]; auto.
  - injection Hexec as <-. unfold sequences_ahead. simpl.
    repeat split; intros y Hin; apply filter_In in Hin; destruct Hin; auto.
Qed.

Lemma insert_below_same_sequences (d d' : Database) (stmt : Dml) :
  students_id_seq d' = students_id_seq d ->
  academic_details_id_seq d' = academic_details_id_seq d ->
  documents_id_seq d' = documents_id_seq d ->
  insert_below d stmt -> insert_below d' stmt.
Proof.
  intros H1 H2 H3. destruct stmt; simpl; congruence.
Qed.

Lemma flush_well_formed (stmts : list Dml) (d d' : Database) :
  flush stmts d = Ok d' ->
  Forall (insert_below d) stmts ->
  well_formed d -> well_formed d'.
Proof.
  revert d. induction stmts as [|stmt stmts IH]; intros d; simpl.
  - intros H. now injection H as <-.
  - destruct (exec_dml stmt d) as [d1|exc] eqn:H1; [|discriminate].
    intros H Hbelow [Hk [Hc [Ho Hs]]]. inversion Hbelow as [|x t Hx Ht]; subst.
    destruct (exec_dml_sequences _ _ _ H1) as [S1 [S2 S3]].
    apply (IH d1 H).
    + eapply Forall_impl; [|exact Ht]. intros s. now apply insert_below_same_sequences.
    + split; [|split; [|split]].
      * eapply exec_dml_unique_keys; eauto.
      * eapply exec_dml_columns_fit; eauto.
      * eapply exec_dml_no_orphans; eauto.
      * eapply exec_dml_sequences_ahead; eauto.
Qed.

(** ** Properties that every handler maintains *)

Section Maintains.

Variable I : State -> Prop.

Hypothesis I_disk : forall st files, I st -> I (mkState (db st) (pending st) files).
Hypothesis I_commit : maintains I db_commit.
Hypothesis I_rollback : maintains I db_rollback.
Hypothesis I_add_student :
  forall name email phone gender, maintains I (db_add_student name email phone gender).
Hypothesis I_add_academic :
  forall sid college dep year cgpa backlogs,
    maintains I (db_add_academic sid college dep year cgpa backlogs).
Hypothesis I_add_document :
  forall sid doc_type path, maintains I (db_add_document sid doc_type path).
Hypothesis I_setattr_student : forall obj item, maintains I (setattr_student obj item).
Hypothesis I_setattr_academic : forall obj item, maintains I (setattr_academic obj item).
Hypothesis I_delete : forall obj, maintains I (db_delete obj).

Lemma maintains_ret {A} (a : A) : maintains I (ret a).
Proof. intros env st r st' H. injection H as _ <-. auto. Qed.

Lemma maintains_raise {A} (exc : Exc) : maintains I (@raise A exc).
Proof. intros env st r st' H. injection H as _ <-. auto. Qed.

Lemma maintains_bind {A B} (m : M A) (k : A -> M B) :
  maintains I m -> (forall a, maintains I (k a)) -> maintains I (bind m k).
Proof.
  intros Hm Hk env st r st' H Hinv. rewrite bind_run in H.
  destruct (m env st) as [[a|exc] st1] eqn:Hrun.
  - eapply Hk; [exact H|]. eapply Hm; eauto.
  - injection H as _ <-. eapply Hm; eauto.
Qed.

Lemma maintains_try_except {A} (body : M A) (handler : Exc -> M A) :
  maintains I body -> (forall exc, maintains I (handler exc)) ->
  maintains I (try_except body handler).
Proof.
  intros Hb Hh env st r st' H Hinv. unfold try_except in H.
  destruct (body env st) as [[a|exc] st1] eqn:Hrun.
  - injection H as _ <-. eapply Hb; eauto.
  - eapply Hh; [exact H|]. eapply Hb; eauto.
Qed.

Lemma maintains_for_each {A} (xs : list A) (body : A -> M unit) :
  (forall x, maintains I (body x)) -> maintains I (for_each xs body).
Proof.
  intros Hbody. induction xs as [|x xs IH]; simpl.
  - apply maintains_ret.
  - apply maintains_bind; auto.
Qed.

Lemma maintains_reader {A} (f : Env -> State -> A) :
  maintains I (fun env st => (Ok (f env st), st)).
Proof. intros env st r st' H. injection H as _ <-. auto. Qed.

Lemma maintains_validate (ok : bool) : maintains I (validate ok).
Proof. destruct ok; [apply maintains_ret | apply maintains_raise]. Qed.

Lemma maintains_os_remove (path : string) : maintains I (os_remove path).
Proof. intros env st r st' H. injection H as _ <-. now apply I_disk. Qed.

Lemma maintains_write_file (path : string) (content : list Byte.byte) :
  maintains I (write_file path content).
Proof. intros env st r st' H. injection H as _ <-. now apply I_disk. Qed.

Lemma maintains_db_refresh_student (pk : Z) : maintains I (db_refresh_student pk).
Proof.
  apply maintains_bind; [apply (maintains_reader (fun env st => _))|].
  intros [s|]; [apply maintains_ret | apply maintains_raise].
Qed.

Lemma maintains_db_refresh_academic (pk : Z) : maintains I (db_refresh_academic pk).
Proof.
  apply maintains_bind; [apply (maintains_reader (fun env st => _))|].
  intros [a|]; [apply maintains_ret | apply maintains_raise].
Qed.

(** One step through the structure of a handler. *)
Ltac maintains_step :=
  match goal with
  | |- maintains _ (bind _ _) => apply maintains_bind; [|intros ?]
  | |- maintains _ (for_each _ _) => apply maintains_for_each; intros ?
  | |- maintains _ (try_except _ _) => apply maintains_try_except; [|intros ?]
  | |- maintains _ (match ?x with _ => _ end) => destruct x
  | |- maintains _ (if ?x then _ else _) => destruct x
  | |- maintains _ (ret _) => apply maintains_ret
  | |- maintains _ (raise _) => apply maintains_raise
  | |- maintains _ (validate _) => apply maintains_validate
  | |- maintains _ (query_first _ _) => apply (maintains_reader (fun env st => _))
  | |- maintains _ (query_all _ _) => apply (maintains_reader (fun env st => _))
  | |- maintains _ (query_count _) => apply (maintains_reader (fun env st => _))
  | |- maintains _ (respond _) => apply (maintains_reader (fun env st => _))
  | |- maintains _ (os_path_exists _) => apply (maintains_reader (fun env st => _))
  | |- maintains _ (fun env st => (Ok _, st)) => apply (maintains_reader (fun env st => _))
  | |- maintains _ (os_remove _) => apply maintains_os_remove
  | |- maintains _ (write_file _ _) => apply maintains_write_file
  | |- maintains _ (db_refresh_student _) => apply maintains_db_refresh_student
  | |- maintains _ (db_refresh_academic _) => apply maintains_db_refresh_academic
  | |- maintains _ db_commit => apply I_commit
  | |- maintains _ db_rollback => apply I_rollback
  | |- maintains _ (db_add_student _ _ _ _) => apply I_add_student
  | |- maintains _ (db_add_academic _ _ _ _ _ _) => apply I_add_academic
  | |- maintains _ (db_add_document _ _ _) => apply I_add_document
  | |- maintains _ (setattr_student _ _) => apply I_setattr_student
  | |- maintains _ (setattr_academic _ _) => apply I_setattr_academic
  | |- maintains _ (db_delete _) => apply I_delete
  end.

Lemma maintains_create_student (student : StudentCreate.t) :
  maintains I (create_student student).
Proof. unfold create_student. repeat maintains_step. Qed.

Lemma maintains_get_students (skip limit : Z) : maintains I (get_students skip limit).
Proof. unfold get_students. repeat maintains_step. Qed.

Lemma maintains_search_students (college : option string) (year : option Z)
  (department : option string) (skip limit : Z) :
  maintains I (search_students college year department skip limit).
Proof. unfold search_students. repeat maintains_step. Qed.

Lemma maintains_get_student (student_id : Z) : maintains I (get_student student_id).
Proof. unfold get_student. repeat maintains_step. Qed.

Lemma maintains_update_student (student_id : Z) (u : StudentUpdate.t) :
  maintains I (update_student student_id u).
Proof. unfold update_student. repeat maintains_step. Qed.

Lemma maintains_delete_student (student_id : Z) : maintains I (delete_student student_id).
Proof. unfold delete_student. repeat maintains_step. Qed.

Lemma maintains_upload_documents (student_id : Z) (resume : UploadFile.t)
  (id_proof : option UploadFile.t) :
  maintains I (upload_documents student_id resume id_proof).
Proof. unfold upload_documents. repeat maintains_step. Qed.

Lemma maintains_download_document (student_id doc_id : Z) :
  maintains I (download_document student_id doc_id).
Proof. unfold download_document. repeat maintains_step. Qed.

Lemma maintains_create_dummy_data (all_students : list StudentCreate.t) :
  maintains I (create_dummy_data all_students).
Proof. unfold create_dummy_data, seed_one. repeat maintains_step. Qed.

End Maintains.

(** ** Well-formed stores *)

Lemma well_formed_sequences (d : Database) (s1 s2 s3 : Z) :
  students_id_seq d <= s1 -> academic_details_id_seq d <= s2 -> documents_id_seq d <= s3 ->
  well_formed d ->
  well_formed (mkDatabase (students d) (academic_details d) (documents d) s1 s2 s3).
Proof.
  intros H1 H2 H3 [Hk [Hc [Ho [Hs [Ha Hx]]]]]. split; [|split; [|split]].
  - exact Hk.
  - exact Hc.
  - eapply no_orphans_same_rows; [| | |exact Ho]; reflexivity.
  - unfold sequences_ahead. simpl. repeat split; intros y Hy.
    + specialize (Hs y Hy). lia.
    + specialize (Ha y Hy). lia.
    + specialize (Hx y Hy). lia.
Qed.

Lemma insert_below_sequences (d : Database) (s1 s2 s3 : Z) (stmt : Dml) :
  students_id_seq d <= s1 -> academic_details_id_seq d <= s2 -> documents_id_seq d <= s3 ->
  insert_below d stmt ->
  insert_below (mkDatabase (students d) (academic_details d) (documents d) s1 s2 s3) stmt.
Proof.
  intros H1 H2 H3. destruct stmt; simpl; lia.
Qed.

Lemma session_ok_disk (st : State) (files : Files) :
  session_ok st -> session_ok (mkState (db st) (pending st) files).
Proof. auto. Qed.

Lemma session_ok_commit : maintains session_ok db_commit.
Proof.
  intros env st r st' H [Hwf Hpending]. unfold db_commit in H.
  destruct (flush (pending st) (db st)) as [d|exc] eqn:Hflush; injection H as _ <-.
  - split; [|constructor]. simpl. eapply flush_well_formed; eauto.
  - split; [exact Hwf | constructor].
Qed.

Lemma session_ok_rollback : maintains session_ok db_rollback.
Proof.
  intros env st r st' H [Hwf Hpending]. injection H as _ <-.
  split; [exact Hwf | constructor].
Qed.

Lemma session_ok_register (stmt : Dml) :
  (forall d, insert_below d stmt) -> maintains session_ok (register stmt).
Proof.
  intros Hstmt env st r st' H [Hwf Hpending]. injection H as _ <-.
  split; [exact Hwf|]. simpl. apply Forall_app. split; [exact Hpending|].
  constructor; [apply Hstmt | constructor].
Qed.

Lemma session_ok_add_student (name email phone gender : string) :
  maintains session_ok (db_add_student name email phone gender).
Proof.
  intros env st r st' H [Hwf Hpending]. injection H as _ <-. split; simpl.
  - apply well_formed_sequences; try lia; exact Hwf.
  - apply Forall_app. split.
    + eapply Forall_impl; [|exact Hpending]. intros stmt.
      apply insert_below_sequences; lia.
    + constructor; [simpl; lia | constructor].
Qed.

Lemma session_ok_add_academic (sid : Z) (college dep : string) (year : Z) (cgpa : float)
  (backlogs : Z) :
  maintains session_ok (db_add_academic sid college dep year cgpa backlogs).
Proof.
  intros env st r st' H [Hwf Hpending]. injection H as _ <-. split; simpl.
  - apply well_formed_sequences; try lia; exact Hwf.
  - apply Forall_app. split.
    + eapply Forall_impl; [|exact Hpending]. intros stmt.
      apply insert_below_sequences; lia.
    + constructor; [simpl; lia | constructor].
Qed.

Lemma session_ok_add_document (sid : Z) (doc_type path : string) :
  maintains session_ok (db_add_document sid doc_type path).
Proof.
  intros env st r st' H [Hwf Hpending]. injection H as _ <-. split; simpl.
  - apply well_formed_sequences; try lia; exact Hwf.
  - apply Forall_app. split.
    + eapply Forall_impl; [|exact Hpending]. intros stmt.
      apply insert_below_sequences; lia.
    + constructor; [simpl; lia | constructor].
Qed.

Lemma request_maintains {A} (handler : M A) (e : Engine) (now : Z) (w : World) :
  maintains session_ok handler ->
  well_formed (store w) -> well_formed (store (snd (request handler e now w))).
Proof.
  intros Hm Hwf. unfold request.
  destruct (handler _ _) as [r st] eqn:Hrun. simpl.
  apply (Hm _ _ _ _ Hrun). split; [exact Hwf | constructor].
Qed.

Lemma empty_database_well_formed : well_formed empty_database.
Proof.
  split; [|split; [|split]].
  - repeat split; constructor.
  - repeat split; constructor.
  - split; intros x [].
  - repeat split; intros x [].
Qed.

Lemma perform_well_formed (op : Operation) (e : Engine) (now : Z) (w : World) :
  well_formed (store w) -> well_formed (store (perform op e now w)).
Proof.
  intros Hwf.
  pose proof session_ok_disk as D. pose proof session_ok_commit as C.
  pose proof session_ok_rollback as R. pose proof session_ok_add_student as A1.
  pose proof session_ok_add_academic as A2. pose proof session_ok_add_document as A3.
  assert (S1 : forall obj item, maintains session_ok (setattr_student obj item)).
  { intros obj item. apply session_ok_register. intros d. exact Logic.I. }
  assert (S2 : forall obj item, maintains session_ok (setattr_academic obj item)).
  { intros obj item. apply session_ok_register. intros d. exact Logic.I. }
  assert (S3 : forall obj, maintains session_ok (db_delete obj)).
  { intros obj. apply session_ok_register. intros d. exact Logic.I. }
  destruct op; simpl; apply request_maintains; try exact Hwf.
  - now apply maintains_create_student.
  - now apply maintains_get_students.
  - now apply maintains_search_students.
  - now apply maintains_get_student.
  - now apply maintains_update_student.
  - now apply maintains_delete_student.
  - now apply maintains_upload_documents.
  - now apply maintains_download_document.
Qed.

Lemma seeding_well_formed (all_students : list StudentCreate.t) (e : Engine) (now : Z)
  (w : World) :
  well_formed (store w) ->
  well_formed (store (snd (request (create_dummy_data all_students) e now w))).
Proof.
  intros Hwf. apply request_maintains; [|exact Hwf].
  pose proof session_ok_commit as C. pose proof session_ok_rollback as R.
  pose proof session_ok_add_student as A1. pose proof session_ok_add_academic as A2.
  now apply maintains_create_dummy_data.
Qed.

Lemma reachable_well_formed (w : World) : reachable w -> well_formed (store w).
Proof.
  intros H. induction H as [|op e now w He Hr IH].
  - apply empty_database_well_formed.
  - now apply perform_well_formed.
Qed.

(** The store stays well-formed: the empty store is, every operation and
    the seeding leave a well-formed store well-formed whatever they answer,
    and so every store that operations make of the empty one has unique
    keys and emails, rows that fit their columns, no orphans, and sequences
    ahead of every key in use. *)
Theorem store_stays_well_formed :
  well_formed empty_database
  /\ (forall op e clock w,
         well_formed (store w) -> well_formed (store (perform op e clock w)))
  /\ (forall all_students e clock w,
         well_formed (store w) ->
         well_formed (store (snd (request (create_dummy_data all_students) e clock w))))
  /\ (forall w, reachable w -> well_formed (store w)).
Proof.
  split; [apply empty_database_well_formed|]. split; [|split].
  - intros op e clock w. apply perform_well_formed.
  - intros seeds e clock w. apply seeding_well_formed.
  - apply reachable_well_formed.
Qed.

Lemma store_stays_well_formed_witness :
  well_formed (store (perform (Update_student 1 academics_only) seq_scan 2000 one_student)).
Proof.
  destruct store_stays_well_formed as [_ [Hstep [_ Hreach]]].
  apply Hstep. apply Hreach.
  apply (reachable_step (Create_student rahul) seq_scan 1000 empty_world);
    [apply seq_scan_ok | apply reachable_empty].
Defined.

(** ** A creation that succeeds *)

Lemma engine_singleton (e : Engine) (A : Type) (x : A) : Engine_ok e -> e A [x] = [x].
Proof.
  intros He. apply Permutation_length_1_inv, Permutation_sym, He.
Qed.

Lemma filter_snoc_only {A} (p : A -> bool) (l : list A) (x : A) :
  (forall y, In y l -> p y = false) -> p x = true -> filter p (l ++ [x]) = [x].
Proof.
  intros Hl Hx. rewrite filter_app, (filter_nothing p l Hl). simpl. now rewrite Hx.
Qed.

Lemma filter_snoc_none {A} (p : A -> bool) (l : list A) (x : A) :
  (forall y, In y l -> p y = false) -> p x = false -> filter p (l ++ [x]) = [].
Proof.
  intros Hl Hx. rewrite filter_app, (filter_nothing p l Hl). simpl. now rewrite Hx.
Qed.

Lemma student_exists_false (pk : Z) (d : Database) :
  (forall s, In s (students d) -> Student.id s <> pk) -> student_exists pk d = false.
Proof.
  intros H. apply not_true_is_false. intros Hex. apply student_exists_in in Hex.
  destruct Hex as [s [Hs Hid]]. now apply (H s).
Qed.

Lemma existsb_false_of {A} (p : A -> bool) (l : list A) :
  (forall x, In x l -> p x = false) -> existsb p l = false.
Proof.
  intros H. apply not_true_is_false. intros Hex. apply existsb_exists in Hex.
  destruct Hex as [x [Hx Hp]]. rewrite (H x Hx) in Hp. discriminate.
Qed.


(** ** Handlers that only read, handlers that only insert *)

Lemma request_maintained {A} (I : State -> Prop) (handler : M A) (e : Engine) (clock : Z)
  (w : World) :
  maintains I handler ->
  I (mkState (store w) [] (uploads w)) ->
  exists st, I st /\ snd (request handler e clock w) = mkWorld (db st) (disk st).
Proof.
  intros Hm Hinit. unfold request.
  destruct (handler _ _) as [r st] eqn:Hrun. exists st. split; [|reflexivity].
  eapply Hm; eauto.
Qed.

Lemma read_only_request {A} (handler : M A) (e : Engine) (clock : Z) (w : World) :
  maintains (fun st => db st = store w /\ disk st = uploads w) handler ->
  snd (request handler e clock w) = w.
Proof.
  intros Hm.
  destruct (request_maintained _ handler e clock w Hm) as [st [[Hdb Hdisk] ->]];
    [now split|].
  rewrite Hdb, Hdisk. apply world_eta.
Qed.

Lemma flush_extends (stmts : list Dml) (d0 d d' : Database) :
  Forall is_insert stmts -> flush stmts d = Ok d' -> extends d0 d -> extends d0 d'.
Proof.
  revert d. induction stmts as [|stmt stmts IH]; intros d Hins; simpl.
  - intros H. now injection H as <-.
  - inversion Hins as [|x t Hx Ht]; subst.
    destruct (exec_dml stmt d) as [d1|exc] eqn:H1; [|discriminate].
    intros H Hext. apply (IH d1 Ht H). clear IH H.
    destruct Hext as [ns [na [nx [Es [Ea Ex]]]]].
    destruct stmt as [r | r | r | | | ]; simpl in Hx; try contradiction; simpl in H1.
    + unfold insert_student in H1. destruct (negb _); [discriminate|].
      destruct (student_exists _ _); [discriminate|].
      destruct (existsb _ _); [discriminate|]. injection H1 as <-.
      exists (ns ++ [r]), na, nx. simpl. rewrite Es, app_assoc. auto.
    + unfold insert_academic in H1. destruct (negb _); [discriminate|].
      destruct (negb _); [discriminate|]. destruct (existsb _ _); [discriminate|].
      destruct (negb _); [discriminate|]. injection H1 as <-.
      exists ns, (na ++ [r]), nx. simpl. rewrite Ea, app_assoc. auto.
    + unfold insert_document in H1. destruct (negb _); [discriminate|].
      destruct (existsb _ _); [discriminate|].
      destruct (negb _); [discriminate|]. injection H1 as <-.
      exists ns, na, (nx ++ [r]). simpl. rewrite Ex, app_assoc. auto.
Qed.

Section InsertOnly.

Variable d0 : Database.

Lemma inserting_disk (st : State) (files : Files) :
  inserting d0 st -> inserting d0 (mkState (db st) (pending st) files).
Proof. auto. Qed.

Lemma inserting_commit : maintains (inserting d0) db_commit.
Proof.
  intros env st r st' H [Hext Hins]. unfold db_commit in H.
  destruct (flush (pending st) (db st)) as [d|exc] eqn:Hflush; injection H as _ <-.
  - split; [|constructor]. simpl. eapply flush_extends; eauto.
  - split; [exact Hext | constructor].
Qed.

Lemma inserting_rollback : maintains (inserting d0) db_rollback.
Proof.
  intros env st r st' H [Hext Hins]. injection H as _ <-. split; [exact Hext | constructor].
Qed.

Lemma inserting_add_student (name email phone gender : string) :
  maintains (inserting d0) (db_add_student name email phone gender).
Proof.
  intros env st r st' H [Hext Hins]. injection H as _ <-. split; simpl.
  - exact Hext.
  - apply Forall_app. split; [exact Hins | repeat constructor].
Qed.

Lemma inserting_add_academic (sid : Z) (college dep : string) (year : Z) (cgpa : float)
  (backlogs : Z) :
  maintains (inserting d0) (db_add_academic sid college dep year cgpa backlogs).
Proof.
  intros env st r st' H [Hext Hins]. injection H as _ <-. split; simpl.
  - exact Hext.
  - apply Forall_app. split; [exact Hins | repeat constructor].
Qed.

Lemma inserting_add_document (sid : Z) (doc_type path : string) :
  maintains (inserting d0) (db_add_document sid doc_type path).
Proof.
  intros env st r st' H [Hext Hins]. injection H as _ <-. split; simpl.
  - exact Hext.
  - apply Forall_app. split; [exact Hins | repeat constructor].
Qed.

End InsertOnly.

Lemma extends_refl (d : Database) : extends d d.
Proof. exists [], [], []. now rewrite !app_nil_r. Qed.

Lemma insert_only_request {A} (handler : M A) (e : Engine) (clock : Z) (w : World) :
  maintains (inserting (store w)) handler ->
  extends (store w) (store (snd (request handler e clock w))).
Proof.
  intros Hm.
  destruct (request_maintained _ handler e clock w Hm) as [st [[Hext _] ->]].
  - split; [apply extends_refl | constructor].
  - exact Hext.
Qed.

(** The handlers that create - [create_student], [upload_documents] and the
    seeding - never change or remove a row that is in the store: whatever
    they answer, each table afterwards is the table before with rows added
    at the end. *)
Theorem inserting_handlers_keep_rows (e : Engine) (clock : Z) (w : World) :
  (forall student,
      extends (store w) (store (snd (request (create_student student) e clock w))))
  /\ (forall student_id resume id_proof,
         extends (store w)
           (store (snd (request (upload_documents student_id resume id_proof) e clock w))))
  /\ (forall all_students,
         extends (store w)
           (store (snd (request (create_dummy_data all_students) e clock w)))).
Proof.
  pose proof (inserting_disk (store w)) as D.
  pose proof (inserting_commit (store w)) as C.
  pose proof (inserting_rollback (store w)) as R.
  pose proof (inserting_add_student (store w)) as A1.
  pose proof (inserting_add_academic (store w)) as A2.
  pose proof (inserting_add_document (store w)) as A3.
  split; [|split].
  - intros student. apply insert_only_request. now apply maintains_create_student.
  - intros sid resume id_proof. apply insert_only_request.
    now apply maintains_upload_documents.
  - intros seeds. apply insert_only_request. now apply maintains_create_dummy_data.
Qed.

(** The handlers that read - [get_student], [get_students],
    [search_students] and [download_document] - leave the store and the
    upload directory as they were, whatever they answer. *)
Theorem reading_handlers_change_nothing (e : Engine) (clock : Z) (w : World) :
  (forall student_id, snd (request (get_student student_id) e clock w) = w)
  /\ (forall skip limit, snd (request (get_students skip limit) e clock w) = w)
  /\ (forall college year department skip limit,
         snd (request (search_students college year department skip limit) e clock w) = w)
  /\ (forall student_id doc_id,
         snd (request (download_document student_id doc_id) e clock w) = w).
Proof.
  repeat split; intros; apply read_only_request.
  - apply maintains_get_student.
  - apply maintains_get_students.
  - apply maintains_search_students.
  - apply maintains_download_document.
Qed.

(** ** Fetching one student *)

Lemma academic_details_of_in (e : Engine) (d : Database) (pk : Z) (a : AcademicDetails.t) :
  Engine_ok e ->
  In a (academic_details_of e d pk)
  <-> In a (academic_details d) /\ AcademicDetails.student_id a = pk.
Proof.
  intros He. unfold academic_details_of.
  rewrite (engine_in e He), filter_In, Z.eqb_eq. tauto.
Qed.

Lemma documents_of_in (e : Engine) (d : Database) (pk : Z) (x : Documents.t) :
  Engine_ok e ->
  In x (documents_of e d pk) <-> In x (documents d) /\ Documents.student_id x = pk.
Proof.
  intros He. unfold documents_of.
  rewrite (engine_in e He), filter_In, Z.eqb_eq. tauto.
Qed.

(** [get_student] answers "Student not found" exactly when the store has
    no student with the key.  Otherwise the answer carries the values of a
    student row with that key, all academic rows and all documents of that
    student and no others. *)
Theorem get_student_answers (e : Engine) (clock : Z) (w : World) (student_id : Z) :
  Engine_ok e ->
  (student_exists student_id (store w) = false ->
   request (get_student student_id) e clock w
   = (Raise (NotFound "Student not found"), w))
  /\ (student_exists student_id (store w) = true ->
      exists s,
        In s (students (store w)) /\ Student.id s = student_id
        /\ request (get_student student_id) e clock w
           = (Ok (populate e (store w) s), w)
        /\ (forall a, In a (StudentResponse.academic_details (populate e (store w) s))
                      <-> In a (academic_details (store w))
                          /\ AcademicDetails.student_id a = student_id)
        /\ (forall x, In x (StudentResponse.documents (populate e (store w) s))
                      <-> In x (documents (store w))
                          /\ Documents.student_id x = student_id)).
Proof.
  intros He. split.
  - now apply get_student_not_found.
  - intros Hex. apply student_exists_in in Hex. destruct Hex as [s0 [Hs0 Hid0]].
    destruct (engine_first_some e He _
                (filter (fun s => Student.id s =? student_id) (students (store w))) s0)
      as [s Hs].
    { apply filter_In. split; [exact Hs0 | now apply Z.eqb_eq]. }
    exists s. pose proof (engine_first_in e He _ _ _ Hs) as Hin.
    apply filter_In in Hin. destruct Hin as [Hin Hid]. apply Z.eqb_eq in Hid.
    split; [exact Hin|]. split; [exact Hid|]. split; [|split].
    + unfold request, get_student. rewrite bind_run. unfold query_first.
      cbv beta iota. cbn [db engine]. rewrite Hs. unfold respond.
      cbn [db disk engine]. now rewrite world_eta.
    + intros a. simpl. rewrite Hid. now apply academic_details_of_in.
    + intros x. simpl. rewrite Hid. now apply documents_of_in.
Qed.

Lemma get_student_answers_witness :
  exists s,
    In s (students (store two_students)) /\ Student.id s = 2
    /\ request (get_student 2) seq_scan 2000 two_students
       = (Ok (populate seq_scan (store two_students) s), two_students)
    /\ (forall a, In a (StudentResponse.academic_details
                          (populate seq_scan (store two_students) s))
                  <-> In a (academic_details (store two_students))
                      /\ AcademicDetails.student_id a = 2)
    /\ (forall x, In x (StudentResponse.documents
                          (populate seq_scan (store two_students) s))
                  <-> In x (documents (store two_students))
                      /\ Documents.student_id x = 2).
Proof.
  apply (proj2 (get_student_answers seq_scan 2000 two_students 2
                  (fun A l => Permutation_refl l))).
  reflexivity.
Defined.

(** ** Pages *)








(** ** Filter texts are patterns *)

Lemma like_tokens_percents (l : list ascii) :
  Forall (eq percent) l -> like_tokens l = map (fun _ => Any) l.
Proof.
  intros H. induction H as [|c l <- Hl IH]; simpl; [reflexivity | now rewrite IH].
Qed.

Lemma like_match_only_any (p : list LikeToken) (s : list ascii) :
  Forall (eq Any) p -> p <> [] -> like_match p s = true.
Proof.
  intros H. revert s. induction H as [|t p <- Hp IH]; intros s Hne; [congruence|].
  apply like_match_any. exists s, []. split; [now rewrite app_nil_r|].
  destruct p as [|t' p']; [reflexivity|]. apply IH. discriminate.
Qed.

Lemma ilike_percents (value text : string) :
  Forall (eq percent) (list_ascii_of_string text) ->
  ilike value (contains_pattern text) = true.
Proof.
  intros H. unfold ilike. rewrite lower_contains_pattern.
  assert (Hall : Forall (eq percent) (percent :: lower_string text ++ [percent])).
  { constructor; [reflexivity|]. apply Forall_app. split; [|now constructor].
    unfold lower_string. apply Forall_map. eapply Forall_impl; [|exact H].
    now intros c <-. }
  rewrite (like_tokens_percents _ Hall).
  apply like_match_only_any; [|discriminate].
  apply Forall_forall. intros t Ht. apply in_map_iff in Ht. now destruct Ht as [c [<- _]].
Qed.

Lemma filter_everything {A} (p : A -> bool) (l : list A) :
  (forall x, p x = true) -> filter p l = l.
Proof.
  intros H. induction l as [|x l IH]; simpl; [reflexivity|]. now rewrite H, IH.
Qed.

Lemma search_students_request (e : Engine) (clock : Z) (w : World)
  (college : option string) (year : option Z) (department : option string)
  (skip limit : Z) :
  request (search_students college year department skip limit) e clock w
  = if (0 <=? skip) && ((1 <=? limit) && (limit <=? 100))
    then (Ok (load_page e (store w)
                (map fst (window skip limit
                            (e _ (search_rows college year department (store w)))))), w)
    else (Raise InvalidParameter, w).
Proof.
  destruct (0 <=? skip) eqn:Hs.
  - destruct ((1 <=? limit) && (limit <=? 100)) eqn:Hl; simpl.
    + apply andb_prop in Hl. destruct Hl as [H1 H2].
      apply search_students_run; lia.
    + unfold request, search_students, bind, validate. rewrite Hs, Hl. simpl.
      now rewrite world_eta.
  - unfold request, search_students, bind, validate. rewrite Hs. simpl.
    now rewrite world_eta.
Qed.

(** A filter text is handed to ILIKE as a pattern: a college or department
    text that consists of percent signs selects every academic row, so the
    search answers as if that filter had not been given. *)
Theorem search_students_percent_filter (e : Engine) (clock : Z) (w : World)
  (text : string) (year : option Z) (other : option string) (skip limit : Z) :
  Forall (eq percent) (list_ascii_of_string text) ->
  request (search_students (Some text) year other skip limit) e clock w
  = request (search_students None year other skip limit) e clock w
  /\ request (search_students other year (Some text) skip limit) e clock w
     = request (search_students other year None skip limit) e clock w.
Proof.
  intros H.
  assert (Hf : forall (get : AcademicDetails.t -> string)
                      (q : list (Student.t * AcademicDetails.t)),
             (if (text =? "")%string then q
              else filter (fun r => ilike (get (snd r)) (contains_pattern text)) q) = q).
  { intros get q. destruct (text =? "")%string; [reflexivity|].
    apply filter_everything. intros r. now apply ilike_percents. }
  rewrite !search_students_request.
  assert (H1 : search_rows (Some text) year other (store w)
               = search_rows None year other (store w)).
  { unfold search_rows. now rewrite (Hf AcademicDetails.college_name). }
  assert (H2 : search_rows other year (Some text) (store w)
               = search_rows other year None (store w)).
  { unfold search_rows. now rewrite (Hf AcademicDetails.department). }
  rewrite H1, H2. split; reflexivity.
Qed.

Lemma search_students_percent_filter_witness :
  request (search_students (Some "%") None None 0 10) seq_scan 2000 two_students
  = request (search_students None None None 0 10) seq_scan 2000 two_students
  /\ request (search_students None None (Some "%") 0 10) seq_scan 2000 two_students
     = request (search_students None None None 0 10) seq_scan 2000 two_students.
Proof.
  apply (search_students_percent_filter seq_scan 2000 two_students "%" None None 0 10).
  repeat constructor.
Defined.

(** ** Updates are all or nothing *)

Lemma Forall2_in_left {A} (R : A -> A -> Prop) (l l' : list A) (x : A) :
  Forall2 R l l' -> In x l -> exists y, In y l' /\ R x y.
Proof.
  intros H. induction H as [|a b l l' Hab H IH]; intros Hin; [destruct Hin|].
  destruct Hin as [<- | Hin].
  - exists b. split; [now left | exact Hab].
  - destruct (IH Hin) as [y [Hy Hr]]. exists y. split; [now right | exact Hr].
Qed.

Lemma update_student_missing (e : Engine) (clock : Z) (w : World) (student_id : Z)
  (u : StudentUpdate.t) :
  Engine_ok e ->
  student_exists student_id (store w) = false ->
  request (update_student student_id u) e clock w
  = (Raise (NotFound "Student not found"), w).
Proof.
  intros He Hnone. rewrite update_student_run.
  rewrite filter_nothing; [now rewrite (engine_nil e He)|].
  intros s Hs. apply (existsb_false_forall _ _ Hnone s Hs).
Qed.

(** After a flush of the statements of an update that went through, the
    student the update found is still there to be reloaded. *)
Lemma update_refresh_finds (e : Engine) (d d' : Database) (student_id : Z)
  (u : StudentUpdate.t) (student : Student.t) :
  Engine_ok e ->
  In student (students d) ->
  flush (update_statements e d student_id u student) d = Ok d' ->
  exists s,
    hd_error (e _ (filter (fun s => Student.id s =? Student.id student) (students d')))
    = Some s.
Proof.
  intros He Hin Hflush. apply flush_update_statements in Hflush.
  destruct Hflush as [Hrows _].
  destruct (Forall2_in_left _ _ _ _ Hrows Hin) as [s' [Hs' [Hid _]]].
  apply (engine_first_some e He _ _ s'). apply filter_In.
  split; [exact Hs' | now apply Z.eqb_eq].
Qed.

(** [update_student] is all or nothing: when it answers with an error -
    "Student not found" when the store has no student with the key, or
    whatever the commit raised - the store and the files are exactly what
    they were, also when the request touched both the student and its
    academic row. *)
Theorem update_student_all_or_nothing (e : Engine) (clock : Z) (w : World)
  (student_id : Z) (u : StudentUpdate.t) :
  Engine_ok e ->
  (student_exists student_id (store w) = false ->
   request (update_student student_id u) e clock w
   = (Raise (NotFound "Student not found"), w))
  /\ (forall exc w',
         request (update_student student_id u) e clock w = (Raise exc, w') -> w' = w).
Proof.
  intros He. split; [now apply update_student_missing|].
  intros exc w' Hrun. rewrite update_student_run in Hrun.
  destruct (hd_error _) as [student|] eqn:Hfind.
  - destruct (flush _ _) as [d|exc'] eqn:Hflush.
    + apply (engine_first_in e He) in Hfind. apply filter_In in Hfind.
      destruct Hfind as [Hin _].
      destruct (update_refresh_finds e _ _ _ _ _ He Hin Hflush) as [s Hs].
      rewrite Hs in Hrun. discriminate.
    + now injection Hrun as _ <-.
  - now injection Hrun as _ <-.
Qed.

Lemma update_student_all_or_nothing_witness :
  request (update_student 7 academics_only) seq_scan 2000 two_students
  = (Raise (NotFound "Student not found"), two_students).
Proof.
  apply (proj1 (update_student_all_or_nothing seq_scan 2000 two_students 7 academics_only
                  (fun A l => Permutation_refl l))).
  reflexivity.
Defined.

Lemma flush_raises_on_null (pk : Z) (col : StudentCol) (stmts : list Dml) (d : Database) :
  In (Set_student pk (col, None)) stmts -> exists exc, flush stmts d = Raise exc.
Proof.
  revert d. induction stmts as [|stmt stmts IH]; intros d Hin; [destruct Hin|].
  simpl. destruct Hin as [-> | Hin].
  - simpl. now eexists.
  - destruct (exec_dml stmt d) as [d1|exc]; [now apply IH | now eexists].
Qed.

(** A field of the student that is sent as null is not taken for an
    omitted one: the commit refuses it and the request fails without
    changing anything. *)
Theorem update_student_refuses_null (e : Engine) (clock : Z) (w : World)
  (student_id : Z) (u : StudentUpdate.t) :
  Engine_ok e ->
  student_exists student_id (store w) = true ->
  StudentUpdate.name u = Some None \/ StudentUpdate.email u = Some None
  \/ StudentUpdate.phone u = Some None \/ StudentUpdate.gender u = Some None ->
  exists exc, request (update_student student_id u) e clock w = (Raise exc, w).
Proof.
  intros He Hex Hnull. rewrite update_student_run.
  apply student_exists_in in Hex. destruct Hex as [s0 [Hs0 Hid0]].
  destruct (engine_first_some e He _
              (filter (fun s => Student.id s =? student_id) (students (store w))) s0)
    as [student Hstudent].
  { apply filter_In. split; [exact Hs0 | now apply Z.eqb_eq]. }
  rewrite Hstudent.
  assert (Hin : exists col, In (col, None) (dict_exclude_unset u)).
  { unfold dict_exclude_unset.
    destruct Hnull as [H | [H | [H | H]]]; rewrite H.
    - exists Col_name. now left.
    - exists Col_email. apply in_or_app. right. now left.
    - exists Col_phone. apply in_or_app. right. apply in_or_app. right. now left.
    - exists Col_gender. do 3 (apply in_or_app; right). now left. }
  destruct Hin as [col Hcol].
  destruct (flush_raises_on_null (Student.id student) col
              (update_statements e (store w) student_id u student) (store w))
    as [exc Hexc].
  { unfold update_statements. apply in_or_app. left.
    apply (in_map (Set_student (Student.id student)) _ _ Hcol). }
  rewrite Hexc. now exists exc.
Qed.

Lemma update_student_refuses_null_witness :
  exists exc,
    request (update_student 1 (StudentUpdate.mk (Some None) None None None None))
            seq_scan 2000 two_students
    = (Raise exc, two_students).
Proof.
  apply (update_student_refuses_null seq_scan 2000 two_students 1).
  - intros A l. apply Permutation_refl.
  - reflexivity.
  - left. reflexivity.
Defined.

(** ** What an update answers *)

Lemma assign_items_id (items : list StudentItem) (s : Student.t) :
  Student.id (assign_items items s) = Student.id s.
Proof.
  unfold assign_items. revert s. induction items as [|[col [v|]] items IH]; intros s; simpl.
  - reflexivity.
  - rewrite IH. apply write_student_col_id.
  - apply IH.
Qed.





(** ** What a deletion removes *)

Lemma existsb_permutation {A} (p : A -> bool) (l l' : list A) :
  Permutation l l' -> existsb p l = existsb p l'.
Proof.
  intros H. induction H; simpl.
  - reflexivity.
  - now rewrite IHPermutation.
  - now rewrite !orb_assoc, (orb_comm (p y) (p x)).
  - congruence.
Qed.

Lemma existsb_filter {A} (p q : A -> bool) (l : list A) :
  existsb p (filter q l) = existsb (fun x => q x && p x) l.
Proof.
  induction l as [|x l IH]; simpl; [reflexivity|].
  destruct (q x); simpl; now rewrite IH.
Qed.

Lemma remove_absent_file (path : string) (files : Files) :
  existsb (fun f => (fst f =? path)%string) files = false ->
  filter (fun f => negb (fst f =? path)%string) files = files.
Proof.
  intros H. induction files as [|f files IH]; simpl in *; [reflexivity|].
  apply orb_false_iff in H. destruct H as [Hf Hrest].
  rewrite Hf. simpl. now rewrite IH.
Qed.

(** The loop of [delete_student] over the documents removes the files
    with their paths and no other. *)
Lemma for_each_remove_files_exact (docs : list Documents.t) (env : Env) (st : State) :
  for_each docs remove_file_of env st
  = (Ok tt,
     mkState (db st) (pending st)
       (filter (fun f => negb (existsb (fun x => (fst f =? Documents.file_path x)%string)
                                       docs))
               (disk st))).
Proof.
  revert st. induction docs as [|doc docs IH]; intros st; simpl.
  - unfold ret. rewrite filter_everything by reflexivity. now destruct st.
  - unfold bind at 1, remove_file_of at 1, bind at 1, os_path_exists, os_remove, ret.
    assert (Hstep : forall files : Files,
               filter (fun f => negb (existsb (fun x => (fst f =? Documents.file_path x)%string)
                                              docs))
                      (filter (fun f => negb (fst f =? Documents.file_path doc)%string) files)
               = filter (fun f => negb ((fst f =? Documents.file_path doc)%string
                                        || existsb (fun x => (fst f =? Documents.file_path x)%string)
                                                   docs))
                        files).
    { intros files. induction files as [|f files IHfiles]; simpl; [reflexivity|].
      destruct (fst f =? Documents.file_path doc)%string; simpl; [exact IHfiles|].
      destruct (existsb _ docs); simpl; now rewrite IHfiles. }
    destruct (existsb _ (disk st)) eqn:Hpresent.
    + rewrite IH. cbn [db pending disk]. now rewrite Hstep.
    + rewrite IH. rewrite <- Hstep. now rewrite (remove_absent_file _ _ Hpresent).
Qed.

Lemma delete_student_run (e : Engine) (clock : Z) (w : World)
  (student_id : Z) :
  Engine_ok e ->
  (student_exists student_id (store w) = false ->
   request (delete_student student_id) e clock w
   = (Raise (NotFound "Student not found"), w))
  /\ (student_exists student_id (store w) = true ->
      request (delete_student student_id) e clock w
      = (Ok "Student deleted successfully",
         mkWorld (delete_student_rows student_id (store w))
                 (filter (fun f => negb (file_of_student (store w) student_id f))
                         (uploads w)))).
Proof.
  intros He. split.
  - intros Hnone. unfold request, delete_student.
    rewrite bind_run. unfold query_first. cbv beta iota. cbn [db engine].
    rewrite filter_nothing by (intros s Hs; apply (existsb_false_forall _ _ Hnone s Hs)).
    rewrite (engine_nil e He). cbn [hd_error]. unfold raise. cbn [db disk].
    now rewrite world_eta.
  - intros Hex. apply student_exists_in in Hex. destruct Hex as [s0 [Hs0 Hid0]].
    destruct (engine_first_some e He _
                (filter (fun s => Student.id s =? student_id) (students (store w))) s0)
      as [student Hstudent].
    { apply filter_In. split; [exact Hs0 | now apply Z.eqb_eq]. }
    pose proof (engine_first_in e He _ _ _ Hstudent) as Hin.
    apply filter_In in Hin. destruct Hin as [_ Hid]. apply Z.eqb_eq in Hid.
    unfold request, delete_student.
    rewrite bind_run. unfold query_first at 1. cbv beta iota. cbn [db engine].
    rewrite Hstudent. rewrite bind_run. unfold query_all. cbv beta iota. cbn [db engine].
    rewrite bind_run.
    change (fun doc : Documents.t =>
              present <- os_path_exists (Documents.file_path doc) ;;
              (if present then os_remove (Documents.file_path doc) else ret tt))
      with remove_file_of.
    rewrite for_each_remove_files_exact. cbv iota. cbn [db pending disk].
    rewrite bind_run. unfold db_delete, register. cbn [db pending disk app].
    rewrite bind_run. unfold db_commit. cbn [db pending disk flush exec_dml].
    unfold ret. cbn [db disk]. rewrite Hid. f_equal. f_equal.
    apply filter_ext. intros f. f_equal. unfold file_of_student.
    rewrite (existsb_permutation _ _ _ (He _ _)). apply existsb_filter.
Qed.

(** [delete_student] answers "Student not found" and changes nothing when
    the store has no student with the key.  Otherwise it succeeds and
    removes exactly the rows of that student from the three tables and
    exactly the files of its documents from the upload directory; every
    other row and file stays as it was. *)
Theorem delete_student_removes_exactly (e : Engine) (clock : Z) (w : World)
  (student_id : Z) :
  Engine_ok e ->
  (student_exists student_id (store w) = false ->
   request (delete_student student_id) e clock w
   = (Raise (NotFound "Student not found"), w))
  /\ (student_exists student_id (store w) = true ->
      request (delete_student student_id) e clock w
      = (Ok "Student deleted successfully",
         mkWorld (delete_student_rows student_id (store w))
                 (filter (fun f => negb (file_of_student (store w) student_id f))
                         (uploads w)))).
Proof. apply delete_student_run. Qed.

Lemma delete_student_removes_exactly_witness :
  request (delete_student 1) seq_scan 2002 with_resume
  = (Ok "Student deleted successfully",
     mkWorld (delete_student_rows 1 (store with_resume))
             (filter (fun f => negb (file_of_student (store with_resume) 1 f))
                     (uploads with_resume))).
Proof.
  apply (proj2 (delete_student_removes_exactly seq_scan 2002 with_resume 1
                  (fun A l => Permutation_refl l))).
  reflexivity.
Defined.

(** ** Documents *)

Lemma filter_unique {A} (key : A -> Z) (p : A -> bool) (l : list A) (x : A) :
  NoDup (map key l) -> In x l -> p x = true ->
  (forall y, p y = true -> key y = key x) ->
  filter p l = [x].
Proof.
  intros Hnd Hin Hx Hkey. induction l as [|y l IH]; [destruct Hin|].
  simpl in Hnd. inversion Hnd as [|k t Hk Ht]; subst. simpl.
  destruct Hin as [-> | Hin].
  - rewrite Hx. f_equal. apply filter_nothing. intros z Hz.
    destruct (p z) eqn:Hpz; [|reflexivity].
    exfalso. apply Hk. rewrite <- (Hkey z Hpz). now apply in_map.
  - destruct (p y) eqn:Hpy.
    + exfalso. apply Hk. rewrite (Hkey y Hpy). now apply in_map.
    + now apply IH.
Qed.

(** [download_document] serves a document only under the key of its owner:
    it answers "Document not found" when no document with that key belongs
    to that student, "File not found on server" when the row is there and
    its file is not, and otherwise the stored path with the download name
    made of the document type and the student key. *)
Theorem download_document_answers (e : Engine) (clock : Z) (w : World)
  (student_id doc_id : Z) :
  Engine_ok e ->
  ((forall x, In x (documents (store w)) -> Documents.id x = doc_id ->
              Documents.student_id x <> student_id) ->
   request (download_document student_id doc_id) e clock w
   = (Raise (NotFound "Document not found"), w))
  /\ (forall x,
         NoDup (map Documents.id (documents (store w))) ->
         In x (documents (store w)) ->
         Documents.id x = doc_id -> Documents.student_id x = student_id ->
         request (download_document student_id doc_id) e clock w
         = (if existsb (fun f => (fst f =? Documents.file_path x)%string) (uploads w)
            then Ok (Documents.file_path x, download_name (Documents.doc_type x) student_id)
            else Raise (NotFound "File not found on server"),
            w)).
Proof.
  intros He. split.
  - intros Hnone. unfold request, download_document.
    rewrite bind_run. unfold query_first. cbv beta iota. cbn [db engine].
    rewrite filter_nothing.
    + rewrite (engine_nil e He). cbn [hd_error]. unfold raise. cbn [db disk].
      now rewrite world_eta.
    + intros x Hx. apply andb_false_iff.
      destruct (Z.eqb_spec (Documents.id x) doc_id) as [Hid | Hid]; [right | now left].
      apply Z.eqb_neq. now apply Hnone.
  - intros x Hnd Hin Hid Hsid. unfold request, download_document.
    rewrite bind_run. unfold query_first. cbv beta iota. cbn [db engine].
    rewrite (filter_unique Documents.id _ _ x Hnd Hin).
    + rewrite (engine_singleton e _ _ He). cbn [hd_error].
      rewrite bind_run. unfold os_path_exists. cbv beta iota. cbn [disk].
      destruct (existsb _ (uploads w)); cbn [negb]; unfold raise, ret; cbn [db disk];
        now rewrite world_eta.
    + apply andb_true_intro. split; now apply Z.eqb_eq.
    + intros y Hy. apply andb_prop in Hy. destruct Hy as [Hy _].
      apply Z.eqb_eq in Hy. congruence.
Qed.

Lemma download_document_answers_witness :
  request (download_document 2 1) seq_scan 2003 with_resume
  = (Raise (NotFound "Document not found"), with_resume).
Proof.
  apply (proj1 (download_document_answers seq_scan 2003 with_resume 2 1
                  (fun A l => Permutation_refl l))).
  intros x [<- | []] _. discriminate.
Defined.

Lemma append_cancel (a b c : string) : String.append a b = String.append a c -> b = c.
Proof.
  induction a as [|ch a IH]; simpl; intros H; [exact H|].
  injection H as H. now apply IH.
Qed.

Lemma upload_paths_differ (student_id : Z) (resume id_proof : UploadFile.t) :
  resume_path student_id resume <> id_proof_path student_id id_proof.
Proof.
  unfold resume_path, id_proof_path, os_path_join. intros H.
  do 4 apply append_cancel in H. discriminate.
Qed.










(** ** Seeding *)

Lemma flush_waiting (prev : option AcademicDetails.t) (d : Database)
  (seeds : list StudentCreate.t) :
  seed_ready d prev seeds ->
  forall s1,
    flush (map Insert_academic (waiting prev))
          (mkDatabase (students d) (academic_details d) (documents d)
                      s1 (academic_details_id_seq d) (documents_id_seq d))
    = Ok (mkDatabase (students d) (academic_details d ++ waiting prev) (documents d)
                     s1 (academic_details_id_seq d) (documents_id_seq d)).
Proof.
  intros [_ [Hprev _]] s1. destruct prev as [a|]; simpl.
  - destruct (Hprev a eq_refl) as [H1 [H2 [H3 [H4 [_ [Hpk Hfk]]]]]].
    unfold insert_academic. rewrite H1, H2, H3, H4. cbn [andb negb academic_details].
    rewrite existsb_false_of
      by (intros a' Hin; apply Z.eqb_neq; specialize (Hpk a' Hin); lia).
    assert (Hfk' : student_exists (AcademicDetails.student_id a)
                     (mkDatabase (students d) (academic_details d) (documents d)
                                 s1 (academic_details_id_seq d) (documents_id_seq d)) = true)
      by exact Hfk.
    rewrite Hfk'. reflexivity.
  - now rewrite app_nil_r.
Qed.

Lemma request_fits_parts (x : StudentCreate.t) :
  request_fits x = true ->
  (varchar 100 (StudentCreate.name x) = true /\ varchar 100 (StudentCreate.email x) = true
   /\ varchar 15 (StudentCreate.phone x) = true /\ varchar 10 (StudentCreate.gender x) = true)
  /\ varchar 200 (AcademicDetailsBase.college_name (StudentCreate.academic_details x)) = true
  /\ varchar 100 (AcademicDetailsBase.department (StudentCreate.academic_details x)) = true
  /\ int4 (AcademicDetailsBase.graduation_year (StudentCreate.academic_details x)) = true
  /\ int4 (AcademicDetailsBase.backlogs (StudentCreate.academic_details x)) = true.
Proof.
  unfold request_fits. intros H.
  repeat (apply andb_prop in H; destruct H as [H ?]). tauto.
Qed.

(** One turn of the loop. *)
Lemma seed_one_run (e : Engine) (clock : Z) (x : StudentCreate.t)
  (rest : list StudentCreate.t) (d : Database) (prev : option AcademicDetails.t)
  (files : Files) :
  Engine_ok e ->
  seed_ready d prev (x :: rest) ->
  let d1 := mkDatabase (students d ++ [student_row (students_id_seq d) clock x])
                       (academic_details d ++ waiting prev) (documents d)
                       (students_id_seq d + 1) (academic_details_id_seq d + 1)
                       (documents_id_seq d) in
  let a1 := academic_row (academic_details_id_seq d) (students_id_seq d) x in
  seed_one x (mkEnv e clock) (mkState d (map Insert_academic (waiting prev)) files)
  = (Ok tt, mkState d1 [Insert_academic a1] files)
  /\ seed_ready d1 (Some a1) rest.
Proof.
  intros He Hready. pose proof Hready as [[Hs [Ha Hx]] [Hprev [Hfits [Hnd Hmail]]]].
  inversion Hfits as [|x' t Hfx Hfrest]; subst.
  inversion Hnd as [|m t Hm Hnd']; subst.
  destruct (request_fits_parts x Hfx) as [[F1 [F2 [F3 F4]]] [F5 [F6 [F7 F8]]]].
  cbv zeta. split.
  - unfold seed_one.
    rewrite bind_run. unfold db_add_student. cbv beta iota zeta.
    cbn [db pending disk now].
    rewrite bind_run. unfold db_commit at 1. cbn [db pending disk].
    rewrite flush_app, (flush_waiting prev d (x :: rest) Hready).
    cbn [flush exec_dml]. unfold insert_student.
    cbn [Student.name Student.email Student.phone Student.gender Student.id].
    rewrite F1, F2, F3, F4. cbn [andb negb].
    rewrite student_exists_false
      by (cbn [students]; intros s Hin Heq; specialize (Hs s Hin); lia).
    cbn [students].
    rewrite existsb_false_of
      by (intros s Hin; apply String.eqb_neq; apply (Hmail s x Hin); now left).
    cbv iota. unfold with_students.
    cbn [students academic_details documents students_id_seq academic_details_id_seq
         documents_id_seq].
    rewrite bind_run. unfold db_refresh_student. rewrite bind_run.
    unfold query_first at 1. cbv beta iota. cbn [db engine students].
    rewrite filter_snoc_only;
      [| intros s Hin; apply Z.eqb_neq; specialize (Hs s Hin); lia
       | apply Z.eqb_refl].
    rewrite (engine_singleton e _ _ He). cbn [hd_error]. unfold ret at 1. cbv iota zeta.
    rewrite bind_run. unfold db_add_academic. cbv beta iota zeta.
    cbn [db pending disk app Student.id students academic_details documents students_id_seq
         academic_details_id_seq documents_id_seq].
    reflexivity.
  - split; [|split; [|split; [|split]]].
    + unfold sequences_ahead. simpl. repeat split.
      * intros s Hin. apply in_app_or in Hin. destruct Hin as [Hin | [<- | []]].
        -- specialize (Hs s Hin). lia.
        -- simpl. lia.
      * intros a Hin. apply in_app_or in Hin. destruct Hin as [Hin | Hin].
        -- specialize (Ha a Hin). lia.
        -- destruct prev as [p|]; [|destruct Hin]. destruct Hin as [<- | []].
           destruct (Hprev p eq_refl) as [_ [_ [_ [_ [Hlt _]]]]]. lia.
      * exact Hx.
    + intros a Heq. injection Heq as <-. simpl.
      repeat split; auto.
      * lia.
      * intros a' Hin. apply in_app_or in Hin. destruct Hin as [Hin | Hin].
        -- now apply Ha.
        -- destruct prev as [p|]; [|destruct Hin]. destruct Hin as [<- | []].
           now destruct (Hprev p eq_refl) as [_ [_ [_ [_ [Hlt _]]]]].
      * apply student_exists_in. eexists. split; [apply in_or_app; right; now left|].
        reflexivity.
    + exact Hfrest.
    + exact Hnd'.
    + intros s y Hin Hy. simpl in Hin. apply in_app_or in Hin.
      destruct Hin as [Hin | [<- | []]].
      * apply (Hmail s y Hin). now right.
      * simpl. intros Heq. apply Hm. rewrite Heq. now apply in_map.
Qed.

Lemma seed_loop_run (e : Engine) (clock : Z) (seeds : list StudentCreate.t)
  (d : Database) (prev : option AcademicDetails.t) (files : Files) :
  Engine_ok e ->
  seed_ready d prev seeds ->
  for_each seeds seed_one (mkEnv e clock)
           (mkState d (map Insert_academic (waiting prev)) files)
  = (Ok tt, mkState (fst (seed_loop clock seeds d prev))
                    (map Insert_academic (waiting (snd (seed_loop clock seeds d prev))))
                    files)
  /\ seed_ready (fst (seed_loop clock seeds d prev)) (snd (seed_loop clock seeds d prev)) [].
Proof.
  intros He. revert d prev. induction seeds as [|x rest IH]; intros d prev Hready.
  - simpl. split; [reflexivity | exact Hready].
  - destruct (seed_one_run e clock x rest d prev files He Hready) as [Hrun Hnext].
    cbv zeta in Hrun, Hnext.
    cbn [for_each seed_loop]. rewrite bind_run, Hrun. cbv iota.
    apply (IH _ (Some _) Hnext).
Qed.

(** The tables at the end of the loop, in closed form. *)
Lemma seed_loop_rows (clock : Z) (seeds : list StudentCreate.t) (d : Database)
  (prev : option AcademicDetails.t) :
  let result := seed_loop clock seeds d prev in
  let rows := seeded (students_id_seq d) (academic_details_id_seq d) clock seeds in
  students (fst result) = students d ++ map fst rows
  /\ academic_details (fst result) ++ waiting (snd result)
     = academic_details d ++ waiting prev ++ map snd rows
  /\ documents (fst result) = documents d
  /\ students_id_seq (fst result) = students_id_seq d + Z.of_nat (List.length seeds)
  /\ academic_details_id_seq (fst result)
     = academic_details_id_seq d + Z.of_nat (List.length seeds)
  /\ documents_id_seq (fst result) = documents_id_seq d.
Proof.
  revert d prev. induction seeds as [|x rest IH]; intros d prev; cbv zeta.
  - simpl. rewrite !app_nil_r. repeat split; lia.
  - cbn [seed_loop seeded].
    destruct (IH (mkDatabase (students d ++ [student_row (students_id_seq d) clock x])
                             (academic_details d ++ waiting prev) (documents d)
                             (students_id_seq d + 1) (academic_details_id_seq d + 1)
                             (documents_id_seq d))
                 (Some (academic_row (academic_details_id_seq d) (students_id_seq d) x)))
      as [Hs [Ha [Hx [S1 [S2 S3]]]]].
    cbv zeta in *. cbn [students academic_details documents students_id_seq
                        academic_details_id_seq documents_id_seq waiting] in *.
    rewrite Hs, Ha, Hx, S1, S2, S3. cbn [map fst snd List.length].
    rewrite <- !app_assoc. cbn [app]. repeat split; lia.
Qed.

Lemma database_eta (d : Database) :
  mkDatabase (students d) (academic_details d) (documents d)
             (students_id_seq d) (academic_details_id_seq d) (documents_id_seq d) = d.
Proof. now destruct d. Qed.

(** The seeding at startup never fails; it leaves a store that already has
    a student exactly as it is; and on a well-formed store without students
    it creates, for a list of requests that fit their columns and have
    different emails, one student per request under consecutive keys and
    one academic row for each of them, the last one included. *)
Theorem create_dummy_data_seeds (e : Engine) (clock : Z) (w : World)
  (all_students : list StudentCreate.t) :
  Engine_ok e ->
  fst (request (create_dummy_data all_students) e clock w) = Ok tt
  /\ (students (store w) <> [] ->
      request (create_dummy_data all_students) e clock w = (Ok tt, w))
  /\ (students (store w) = [] ->
      well_formed (store w) ->
      Forall (fun x => request_fits x = true) all_students ->
      NoDup (map StudentCreate.email all_students) ->
      let rows := seeded (students_id_seq (store w)) (academic_details_id_seq (store w))
                         clock all_students in
      request (create_dummy_data all_students) e clock w
      = (Ok tt,
         mkWorld
           (mkDatabase (map fst rows) (academic_details (store w) ++ map snd rows)
              (documents (store w))
              (students_id_seq (store w) + Z.of_nat (List.length all_students))
              (academic_details_id_seq (store w) + Z.of_nat (List.length all_students))
              (documents_id_seq (store w)))
           (uploads w))).
Proof.
  intros He. split; [|split].
  - unfold request, create_dummy_data. rewrite bind_run. unfold query_count.
    cbv beta iota. destruct (_ >? 0); [reflexivity|].
    unfold try_except. destruct (bind _ _ _ _) as [[[]|exc] st1]; reflexivity.
  - intros Hsome. unfold request, create_dummy_data. rewrite bind_run.
    unfold query_count. cbv beta iota. cbn [db].
    destruct (students (store w)) as [|s l]; [congruence|].
    cbn [List.length]. replace (Z.of_nat (S (List.length l)) >? 0) with true
      by (symmetry; apply Z.gtb_lt; lia).
    unfold ret. cbn [db disk]. now rewrite world_eta.
  - intros Hnone [_ [_ [_ Hseq]]] Hfits Hnd rows.
    assert (Hready : seed_ready (store w) None all_students).
    { split; [exact Hseq|]. split; [discriminate|]. split; [exact Hfits|].
      split; [exact Hnd|]. rewrite Hnone. intros s x []. }
    destruct (seed_loop_run e clock all_students (store w) None (uploads w) He Hready)
      as [Hloop Hend].
    destruct (seed_loop_rows clock all_students (store w) None)
      as [Rs [Ra [Rx [S1 [S2 S3]]]]]. cbv zeta in Rs, Ra, Rx, S1, S2, S3.
    unfold request, create_dummy_data. rewrite bind_run. unfold query_count.
    cbv beta iota. cbn [db]. rewrite Hnone. cbn [List.length Z.of_nat Z.gtb Z.compare].
    unfold try_except. rewrite bind_run.
    change (map Insert_academic (waiting None)) with (@nil Dml) in Hloop.
    rewrite Hloop. cbv iota. unfold db_commit. cbn [db pending disk].
    pose proof (flush_waiting _ _ _ Hend
                  (students_id_seq (fst (seed_loop clock all_students (store w) None))))
      as Hflush.
    rewrite database_eta in Hflush. rewrite Hflush. cbn [db disk].
    f_equal. f_equal. rewrite Ra, Rs, Rx, S1, S2, S3, Hnone. reflexivity.
Qed.

Lemma create_dummy_data_seeds_witness :
  request (create_dummy_data [rahul; priya]) seq_scan 1000 two_students
  = (Ok tt, two_students)
  /\ request (create_dummy_data [rahul; priya]) seq_scan 1000 empty_world
     = (Ok tt,
        mkWorld
          (mkDatabase (map fst (seeded 1 1 1000 [rahul; priya]))
                      (map snd (seeded 1 1 1000 [rahul; priya])) [] 3 3 1)
          []).
Proof.
  split.
  - apply (proj1 (proj2 (create_dummy_data_seeds seq_scan 1000 two_students [rahul; priya]
                           (fun A l => Permutation_refl l)))).
    discriminate.
  - apply (proj2 (proj2 (create_dummy_data_seeds seq_scan 1000 empty_world [rahul; priya]
                           (fun A l => Permutation_refl l)))).
    + reflexivity.
    + apply empty_database_well_formed.
    + repeat constructor.
    + repeat constructor; simpl; intuition discriminate.
Defined.

(** ** Operations in sequence *)







(** ** Emails stay unique under updates *)

Lemma flush_raises_on_taken_email (pk : Z) (v : string) (other : Student.t)
  (before : list StudentItem) (rest : list Dml) (d : Database) :
  In other (students d) -> Student.id other <> pk -> Student.email other = v ->
  exists exc,
    flush (map (Set_student pk) before ++ Set_student pk (Col_email, Some v) :: rest) d
    = Raise exc.
Proof.
  intros Hin Hid Hmail. rewrite flush_app.
  destruct (flush (map (Set_student pk) before) d) as [d1|exc] eqn:H1; [|now eexists].
  apply (flush_student_items pk (map fst before)) in H1; [|intros item; apply in_map].
  destruct H1 as [Hrows _].
  destruct (Forall2_in_left _ _ _ _ Hrows Hin) as [y [Hy [_ [_ [_ [_ [_ [_ Hsame]]]]]]]].
  rewrite (Hsame Hid) in Hy.
  simpl. unfold update_student_row.
  destruct (negb (varchar _ v)); [eexists; reflexivity|].
  assert (Htaken : existsb (fun s => negb (Student.id s =? pk) && (Student.email s =? v)%string)
                           (students d1) = true).
  { apply existsb_exists. exists other. split; [exact Hy|].
    apply andb_true_intro. split.
    - now apply negb_true_iff, Z.eqb_neq.
    - now apply String.eqb_eq. }
  rewrite Htaken. eexists. reflexivity.
Qed.

(** [update_student] has no check of its own for the email, and still never
    gives a student the email of another one: the commit refuses the
    update, the request fails, and nothing is changed. *)
Theorem update_student_refuses_taken_email (e : Engine) (clock : Z) (w : World)
  (student_id : Z) (u : StudentUpdate.t) (v : string) (other : Student.t) :
  Engine_ok e ->
  student_exists student_id (store w) = true ->
  StudentUpdate.email u = Some (Some v) ->
  In other (students (store w)) ->
  Student.id other <> student_id -> Student.email other = v ->
  exists exc, request (update_student student_id u) e clock w = (Raise exc, w).
Proof.
  intros He Hex Hu Hin Hid Hmail. rewrite update_student_run.
  apply student_exists_in in Hex. destruct Hex as [s0 [Hs0 Hid0]].
  destruct (engine_first_some e He _
              (filter (fun s => Student.id s =? student_id) (students (store w))) s0)
    as [student Hstudent].
  { apply filter_In. split; [exact Hs0 | now apply Z.eqb_eq]. }
  rewrite Hstudent.
  apply (engine_first_in e He) in Hstudent. apply filter_In in Hstudent.
  destruct Hstudent as [_ Hpk]. apply Z.eqb_eq in Hpk.
  assert (Hsplit : exists before rest,
             update_statements e (store w) student_id u student
             = map (Set_student (Student.id student)) before
               ++ Set_student (Student.id student) (Col_email, Some v) :: rest).
  { unfold update_statements, dict_exclude_unset. rewrite Hu.
    destruct (StudentUpdate.name u) as [name|].
    - exists [(Col_name, name)]. eexists. cbn [app map].
      rewrite !map_app. cbn [map app]. rewrite <- !app_assoc. reflexivity.
    - exists []. eexists. cbn [app map]. rewrite !map_app. rewrite <- !app_assoc.
      reflexivity. }
  destruct Hsplit as [before [rest ->]].
  destruct (flush_raises_on_taken_email (Student.id student) v other before rest (store w))
    as [exc Hexc]; auto; [congruence|].
  rewrite Hexc. now exists exc.
Qed.

Lemma update_student_refuses_taken_email_witness :
  exists exc,
    request (update_student 1
               (StudentUpdate.mk None (Some (Some "priya.patel@email.com")) None None None))
            seq_scan 2000 two_students
    = (Raise exc, two_students).
Proof.
  apply (update_student_refuses_taken_email seq_scan 2000 two_students 1 _
           "priya.patel@email.com"
           (Student.mk 2 "Priya Patel" "priya.patel@email.com" "+91-9876543211" "Female"
                       1001)).
  - intros A l. apply Permutation_refl.
  - reflexivity.
  - reflexivity.
  - right. left. reflexivity.
  - discriminate.
  - reflexivity.
Defined.
